(** * DeTrash-API: the forms service

    A shallow embedding of [src/services/forms.service.ts] (class
    [FormsService]) together with the collaborators it talks to, and the
    properties of the service that the specification states.

    Conventions of the embedding.
    - An [async] method is a computation in the monad [M]: it threads the
      state of the outside world (database tables, the log of calls made to
      the storage gateway, the database clock) and may end in an exception.
      An exception does not roll anything back: the world reached so far is
      kept, as in the service, which opens no transaction.
    - A JavaScript [number] is an exact rational ([Qc]); rounding of IEEE
      doubles is outside the model.
    - Runtime built-ins the service calls but does not define
      ([String(number)], [JSON.stringify], [new URL], the id generator of
      the database) and helpers that live outside [src/] are [Variable]s of
      a section.
    - The database is taken to answer: a repository call fails only where
      the model says so (an update of a row that does not exist); an
      outage of the database is outside the model. *)

From Stdlib Require Import String Ascii List Bool Arith Lia QArith Qcanon.
From Stdlib Require Import Sorted Permutation.
From stdpp Require Import base tactics option list strings pretty.

Import ListNotations.
Local Open Scope string_scope.
Local Open Scope list_scope.

(** ** Data model *)

(** [enum ResidueType] of [form.entity.ts]. *)
Inductive ResidueType : Type :=
  | GLASS
  | METAL
  | ORGANIC
  | PAPER
  | PLASTIC.

(** The string value of each member of the enum. *)
Definition ResidueType_value (r : ResidueType) : string :=
  match r with
  | GLASS => "GLASS"
  | METAL => "METAL"
  | ORGANIC => "ORGANIC"
  | PAPER => "PAPER"
  | PLASTIC => "PLASTIC"
  end.

Definition ResidueType_eqb (a b : ResidueType) : bool :=
  match a, b with
  | GLASS, GLASS | METAL, METAL | ORGANIC, ORGANIC
  | PAPER, PAPER | PLASTIC, PLASTIC => true
  | _, _ => false
  end.

(** Modelled from the spec: [enum ProfileType] of [user.entity.ts], which is
    not under [src/].  The spec gives RECYCLER, WASTE_GENERATOR and at least
    one further type that may not upload; the further members are kept
    open, each named by its string value. *)
Inductive ProfileType : Type :=
  | RECYCLER
  | WASTE_GENERATOR
  | OTHER_PROFILE (value : string).

Definition ProfileType_eqb (a b : ProfileType) : bool :=
  match a, b with
  | RECYCLER, RECYCLER => true
  | WASTE_GENERATOR, WASTE_GENERATOR => true
  | OTHER_PROFILE x, OTHER_PROFILE y => String.eqb x y
  | _, _ => false
  end.

(** Modelled from the spec: the User row (identity, external auth identity,
    profile type, email). *)
Record User : Type := mkUser {
  user_id : string;
  authUserId : string;
  profileType : ProfileType;
  email : string
}.

(** The Form row.  The identity, the five quantities, the owning user and
    the creation time are those of [form.entity.ts]; wallet address,
    authorization flag and metadata URL are the columns the service reads
    and writes. *)
Record Form : Type := mkForm {
  form_id : string;
  plasticKgs : Qc;
  paperKgs : Qc;
  metalKgs : Qc;
  glassKgs : Qc;
  organicKgs : Qc;
  userId : string;
  walletAddress : option string;
  isFormAuthorizedByAdmin : bool;
  formMetadataUrl : option string;
  form_createdAt : nat
}.

(** The Document row of [document.entity.ts]. *)
Record Document : Type := mkDocument {
  doc_id : string;
  residueType : ResidueType;
  amount : Qc;
  videoFileName : option string;
  invoicesFileName : list string;
  formId : string;
  doc_createdAt : nat
}.

(** Modelled from the spec: one per-category structure of the submission
    input ([CreateFormInput] is not under [src/]): the amount, an optional
    desired video file name, and the desired invoice file names. *)
Record ResidueInput : Type := mkResidueInput {
  in_amount : Qc;
  in_videoFileName : option string;
  in_invoicesFileName : list string
}.

(** Modelled from the spec: [CreateFormInput], with one structure for each
    of the five fixed categories. *)
Record CreateFormInput : Type := mkCreateFormInput {
  in_authUserId : string;
  in_walletAddress : option string;
  in_GLASS : ResidueInput;
  in_METAL : ResidueInput;
  in_ORGANIC : ResidueInput;
  in_PAPER : ResidueInput;
  in_PLASTIC : ResidueInput
}.

(** [Object.entries(restFormData)]: the own properties left after
    [authUserId] and [walletAddress] are taken out, in property order. *)
Definition Object_entries (i : CreateFormInput) : list (ResidueType * ResidueInput) :=
  [ (GLASS, in_GLASS i); (METAL, in_METAL i); (ORGANIC, in_ORGANIC i);
    (PAPER, in_PAPER i); (PLASTIC, in_PLASTIC i) ].

(** ** The storage gateway *)

(** The arguments of one call of [S3Service.createPreSignedObjectUrl]. *)
Record S3Request : Type := mkS3Request {
  req_fileName : string;
  req_residueType : string;
  req_basePath : option string;
  req_bucket : option string
}.

(** What the gateway answers: the storage-assigned key and the upload URL. *)
Record S3Object : Type := mkS3Object {
  fileName : string;
  createUrl : string
}.

(** ** Exceptions *)

Inductive Exception : Type :=
  | NotFoundException (message : string)
  | ForbiddenException (message : string)
  | StorageFailure (message : string)
  | PersistenceFailure (message : string)
  | TypeError (message : string).

Module MessagesHelper.
Definition USER_EXISTS := "User already exists".
Definition USER_NOT_FOUND := "User not found".
Definition USER_DOES_NOT_HAS_PERMISSION_TO_UPLOAD :=
    "User do not have permission to submit files".
Definition FORM_NOT_FOUND := "Form not found".
Definition FORM_DOES_NOT_HAVE_DOCUMENT :=
    "Form does not provides the document requested".
Definition INVALID_FILE_TYPE := "Invalid file type".
Definition FILE_NAME_COULD_NOT_BE_CREATED := "File name could not be created".
End MessagesHelper.

(** ** The world and the monad of the service *)

Record World : Type := mkWorld {
  forms : list Form;
  documents : list Document;
  users : list User;
  s3Log : list S3Request;
  clock : nat
}.

Definition M (A : Type) : Type := World -> (Exception + A) * World.

Definition ret {A} (a : A) : M A := fun w => (inr a, w).

Definition throw {A} (e : Exception) : M A := fun w => (inl e, w).

Definition bind {A B} (m : M A) (k : A -> M B) : M B :=
  fun w =>
    match m w with
    | (inl e, w') => (inl e, w')
    | (inr a, w') => k a w'
    end.

Notation "'let*' x ':=' m 'in' k" := (bind m (fun x => k))
  (at level 10, x name, m at level 100, k at level 200).

(** [Promise.all] over calls that have all been started: every call takes
    effect, in list order; the result is the list of values, or the
    exception of the first call (in list order) that failed. *)
Fixpoint Promise_all {A} (ps : list (M A)) : M (list A) :=
  match ps with
  | [] => ret []
  | p :: ps' =>
      fun w =>
        let '(r, w1) := p w in
        let '(rs, w2) := Promise_all ps' w1 in
        (match r, rs with
         | inl e, _ => inl e
         | inr _, inl e => inl e
         | inr a, inr l => inr (a :: l)
         end, w2)
  end.

(** An [Array.prototype.reduce] whose callback is [async] and starts by
    awaiting the accumulator: the steps run one after the other, and a
    rejected step rejects every later one before it does anything. *)
Fixpoint reduce_async {A B} (f : A -> B -> M A) (l : list B) (acc : A) : M A :=
  match l with
  | [] => ret acc
  | x :: l' => let* acc' := f acc x in reduce_async f l' acc'
  end.

(** JavaScript truthiness of a nullable string. *)
Definition truthy (s : option string) : bool :=
  match s with
  | Some (String _ _) => true
  | _ => false
  end.

(** [value || fallback] on a nullable string. *)
Definition or_else (s : option string) (fallback : string) : string :=
  match s with
  | Some (String a r) => String a r
  | _ => fallback
  end.

(** [value || 0] on a nullable number: zero is falsy too. *)
Definition or_zero (n : option Qc) : Qc :=
  match n with
  | Some q => if Qc_eq_dec q 0%Qc then 0%Qc else q
  | None => 0%Qc
  end.

(** [Promise.all] of two calls of different types. *)
Definition Promise_all2 {A B} (p : M A) (q : M B) : M (A * B) :=
  fun w =>
    let '(r, w1) := p w in
    let '(s, w2) := q w1 in
    (match r, s with
     | inl e, _ => inl e
     | inr _, inl e => inl e
     | inr a, inr b => inr (a, b)
     end, w2).

(** Field updates of the world. *)
Definition with_forms (fs : list Form) (w : World) : World :=
  mkWorld fs (documents w) (users w) (s3Log w) (clock w).

Definition with_documents (ds : list Document) (w : World) : World :=
  mkWorld (forms w) ds (users w) (s3Log w) (clock w).

Definition with_s3Log (l : list S3Request) (w : World) : World :=
  mkWorld (forms w) (documents w) (users w) l (clock w).

Definition tick (w : World) : World :=
  mkWorld (forms w) (documents w) (users w) (s3Log w) (S (clock w)).

(** Field updates of a Form row: the two columns the service writes. *)
Definition with_isFormAuthorizedByAdmin (b : bool) (f : Form) : Form :=
  mkForm (form_id f) (plasticKgs f) (paperKgs f) (metalKgs f) (glassKgs f)
         (organicKgs f) (userId f) (walletAddress f) b (formMetadataUrl f)
         (form_createdAt f).

Definition with_formMetadataUrl (u : option string) (f : Form) : Form :=
  mkForm (form_id f) (plasticKgs f) (paperKgs f) (metalKgs f) (glassKgs f)
         (organicKgs f) (userId f) (walletAddress f)
         (isFormAuthorizedByAdmin f) u (form_createdAt f).

(** ** The runtime's [URL] class

    The components of a [URL] object that the service reads.  The
    constructor [new URL(s)] itself belongs to the runtime: the service
    takes it as a parameter (see the section of the service). *)
Record URL : Type := mkURL {
  origin : string;
  pathname : string;
  search : string;
  hash : string
}.

(** The longest prefix with no character in [stop], and the rest. *)
Fixpoint span_until (stop : ascii -> bool) (s : string) : string * string :=
  match s with
  | EmptyString => (EmptyString, EmptyString)
  | String c r =>
      if stop c then (EmptyString, s)
      else let '(a, b) := span_until stop r in (String c a, b)
  end.

Definition is_colon (c : ascii) : bool := Ascii.eqb c ":".
Definition is_hash (c : ascii) : bool := Ascii.eqb c "#".
Definition is_path_end (c : ascii) : bool := Ascii.eqb c "?" || Ascii.eqb c "#".
Definition is_authority_end (c : ascii) : bool :=
  Ascii.eqb c "/" || Ascii.eqb c "?" || Ascii.eqb c "#".

(** [s] without the prefix [p], when it starts with it. *)
Fixpoint strip_prefix (p s : string) : option string :=
  match p, s with
  | EmptyString, _ => Some s
  | String a p', String b s' => if Ascii.eqb a b then strip_prefix p' s' else None
  | String _ _, EmptyString => None
  end.

(** A URL class for the examples: it reads a string that is already in
    serialised form, [scheme://authority/path?query#fragment], and cuts the
    components out as they stand. *)
Definition URL_of_serialised (s : string) : option URL :=
  let '(scheme, r0) := span_until is_colon s in
  match scheme, strip_prefix "://" r0 with
  | String _ _, Some r1 =>
      let '(authority, r2) := span_until is_authority_end r1 in
      match authority with
      | EmptyString => None
      | String _ _ =>
          let '(path, r3) := span_until is_path_end r2 in
          let '(query, fragment) := span_until is_hash r3 in
          Some {| origin := scheme +:+ "://" +:+ authority;
                  pathname := match path with
                              | EmptyString => "/"
                              | String _ _ => path
                              end;
                  search := match query with
                            | String _ EmptyString => ""
                            | _ => query
                            end;
                  hash := match fragment with
                          | String _ EmptyString => ""
                          | _ => fragment
                          end |}
      end
  | _, _ => None
  end.

(** Whether a question mark occurs in a string. *)
Fixpoint has_question (s : string) : bool :=
  match s with
  | EmptyString => false
  | String c r => Ascii.eqb c "?" || has_question r
  end.

(** ** Responses of the service *)

(** One element of the [s3] list that [createForm] returns. *)
Record ResidueUpload : Type := mkResidueUpload {
  invoicesCreateUrl : list string;
  up_invoicesFileName : list string;
  videoCreateUrl : string;
  up_videoFileName : option string;
  residue : ResidueType
}.

Record CreateFormResponse : Type := mkCreateFormResponse {
  form : Form;
  s3 : list ResidueUpload
}.

(** One element of the list that [aggregateFormByUserProfile] returns. *)
Record AggregateFormByUserProfileResponse : Type := mkAggregate {
  agg_id : ProfileType;
  data : Qc
}.

Record Attribute : Type := mkAttribute {
  trait_type : string;
  value : string
}.

Record JsonMetadata : Type := mkJsonMetadata {
  attributes : list Attribute;
  description : string;
  image : string;
  name : string
}.

Record FormMetadataResponse : Type := mkFormMetadataResponse {
  createMetadataUrl : string;
  body : string
}.

(** ** Vocabulary of the properties *)

(** Two Form rows that agree on every column but the authorization flag. *)
Definition same_but_flag (g g' : Form) : Prop :=
  form_id g' = form_id g
  /\ plasticKgs g' = plasticKgs g
  /\ paperKgs g' = paperKgs g
  /\ metalKgs g' = metalKgs g
  /\ glassKgs g' = glassKgs g
  /\ organicKgs g' = organicKgs g
  /\ userId g' = userId g
  /\ walletAddress g' = walletAddress g
  /\ formMetadataUrl g' = formMetadataUrl g
  /\ form_createdAt g' = form_createdAt g.

(** The aggregate in the words of the specification: a Document counts for
    a profile type when its form belongs to a user of that profile type, and
    the aggregate of a profile type is the sum of the amounts of the
    Documents that count for it. *)
Definition formOfProfile (w : World) (p : ProfileType) (f : Form) : bool :=
  match find (fun u => String.eqb (user_id u) (userId f)) (users w) with
  | Some u => ProfileType_eqb (profileType u) p
  | None => false
  end.

Definition documentOfProfile (w : World) (p : ProfileType) (d : Document) : bool :=
  existsb (fun f => String.eqb (form_id f) (formId d) && formOfProfile w p f)
          (forms w).

Fixpoint sumOfAmounts (ds : list Document) : Qc :=
  match ds with
  | [] => 0%Qc
  | d :: ds' => (amount d + sumOfAmounts ds')%Qc
  end.

Definition amountOfProfile (w : World) (p : ProfileType) : Qc :=
  sumOfAmounts (List.filter (documentOfProfile w p) (documents w)).

(** ** Sample collaborators and inputs

    Concrete collaborators and inputs on which the service is run in the
    examples at the end. *)

Module Sample.

Definition uuid (n : nat) : string := "id-" +:+ pretty n.

(** A gateway that answers every request: the key is the base path (or the
    category and a serial number) followed by the desired name, the URL is
    signed with a query string. *)
Definition s3_respond (log : list S3Request) (req : S3Request)
    : string + S3Object :=
  let key :=
    match req_basePath req with
    | Some basePath => basePath +:+ "/" +:+ req_fileName req
    | None => req_residueType req +:+ "/" +:+ pretty (length log) +:+ "-"
              +:+ req_fileName req
    end in
  let bucket :=
    match req_bucket req with
    | Some b => b
    | None => "detrash-private"
    end in
  inr (mkS3Object key ("https://" +:+ bucket +:+ ".s3.amazonaws.com/" +:+ key
                       +:+ "?X-Amz-Expires=900")).

Definition getResidueTitle (r : ResidueType) : string :=
  match r with
  | GLASS => "Glass"
  | METAL => "Metal"
  | ORGANIC => "Organic"
  | PAPER => "Paper"
  | PLASTIC => "Plastic"
  end.

(** Stand-ins for [String(number)] and [JSON.stringify]: the numerator
    over the denominator, and the attribute values joined by commas. *)
Definition String_of_number (q : Qc) : string :=
  pretty (Qnum (this q)) +:+ "/" +:+ pretty (Zpos (Qden (this q))).

Definition JSON_stringify (m : JsonMetadata) : string :=
  fold_right (fun a acc => trait_type a +:+ "=" +:+ value a +:+ "," +:+ acc)
             (name m) (attributes m).

(** The URL class of the examples: serialised URLs, refusing a string
    whose origin or path would hold a question mark. *)
Definition new_URL (s : string) : option URL :=
  match URL_of_serialised s with
  | Some u => if has_question (origin u +:+ pathname u) then None else Some u
  | None => None
  end.

Definition recycler : User :=
  mkUser "user-1" "auth0|recycler" RECYCLER "recycler@detrash.example".
Definition generator : User :=
  mkUser "user-2" "auth0|generator" WASTE_GENERATOR "generator@detrash.example".
Definition hodler : User :=
  mkUser "user-3" "auth0|hodler" (OTHER_PROFILE "HODLER") "hodler@detrash.example".

Definition world : World := mkWorld [] [] [recycler; generator; hodler] [] 0.

Definition nothing : ResidueInput := mkResidueInput 0%Qc None [].

(** One invoice for PLASTIC, amount 10, sent by the recycler. *)
Definition plasticInvoice : CreateFormInput :=
  mkCreateFormInput "auth0|recycler" (Some "0xabc") nothing nothing nothing nothing
                    (mkResidueInput (Q2Qc 10) None ["invoice1.pdf"]).

(** Quantities only, sent by the user who may not upload. *)
Definition quantitiesOnly : CreateFormInput :=
  mkCreateFormInput "auth0|hodler" None
                    (mkResidueInput (Q2Qc 3) None []) nothing nothing
                    (mkResidueInput (Q2Qc 1) (Some "") []) nothing.

(** A video for GLASS (2.5 kg) and an invoice for PLASTIC (10 kg), sent by
    the recycler. *)
Definition twoResidues : CreateFormInput :=
  mkCreateFormInput "auth0|recycler" (Some "0xabc")
                    (mkResidueInput (Q2Qc (5 # 2)) (Some "glass.mp4") [])
                    nothing nothing nothing
                    (mkResidueInput (Q2Qc 10) None ["invoice1.pdf"]).

(** A video for GLASS with a negative amount, and two invoices for PAPER. *)
Definition negativeGlass : CreateFormInput :=
  mkCreateFormInput "auth0|generator" None
                    (mkResidueInput (Q2Qc (-1)) (Some "glass.mp4") [])
                    nothing nothing
                    (mkResidueInput (Q2Qc (5 # 2)) None ["a.pdf"; "b.pdf"])
                    nothing.

(** A gateway that refuses the file named b.pdf and answers every other
    request as [s3_respond] does. *)
Definition s3_refuses_b (log : list S3Request) (req : S3Request)
    : string + S3Object :=
  if String.eqb (req_fileName req) "b.pdf" then inl "Invalid file type"
  else s3_respond log req.

(** The value a computation returned, or [d] if it failed. *)
Definition returned {A} (d : A) (x : (Exception + A) * World) : A :=
  match fst x with
  | inr a => a
  | inl _ => d
  end.

Definition noForm : Form :=
  mkForm "" 0%Qc 0%Qc 0%Qc 0%Qc 0%Qc "" None false None 0.
Definition noResponse : CreateFormResponse := mkCreateFormResponse noForm [].

End Sample.

(** ** The service *)

Section FormsService.

(** The id the database gives to the row it creates at a given tick. *)
Variable uuid : nat -> string.

(** The storage gateway: what it answers to a request, given the requests
    it has served before; [inl] is the message of a failed call. *)
Variable s3_respond : list S3Request -> S3Request -> string + S3Object.

(** [getResidueTitle] of [src/util], [String(number)], [JSON.stringify]. *)
Variable getResidueTitle : ResidueType -> string.
Variable String_of_number : Qc -> string.
Variable JSON_stringify : JsonMetadata -> string.

(** The constructor of the runtime's [URL] class: [new URL(s)], which
    throws ([None]) on a string that is not a URL. *)
Variable new_URL : string -> option URL.

(** *** Collaborators *)

(** Modelled from the spec: [S3Service.createPreSignedObjectUrl], which is
    not under [src/]: given a desired file name, a category or context and
    optionally a base path and a bucket, the gateway returns a stored object
    key and an upload URL, or fails.  The call is recorded whether it
    succeeds or not. *)
Definition createPreSignedObjectUrl (fileName residueType : string)
    (basePath bucket : option string) : M S3Object :=
  fun w =>
    let req := mkS3Request fileName residueType basePath bucket in
    let w' := with_s3Log (s3Log w ++ [req]) w in
    match s3_respond (s3Log w) req with
    | inl msg => (inl (StorageFailure msg), w')
    | inr o => (inr o, w')
    end.

(** [prisma.form.findUnique({ where: { id } })]. *)
Definition prisma_form_findUnique (id : string) : M (option Form) :=
  fun w => (inr (find (fun f => String.eqb (form_id f) id) (forms w)), w).

(** [prisma.form.create({ data: { userId, walletAddress } })].  Modelled
    from the spec: the defaults of the other columns, which the database
    schema (not under [src/]) sets: quantities zero, authorization flag
    false, no metadata URL, creation time now.  The database is taken to
    answer: a rejected create is outside the model. *)
Definition prisma_form_create (userId : string) (walletAddress : option string)
    : M Form :=
  fun w =>
    let f := mkForm (uuid (clock w)) 0%Qc 0%Qc 0%Qc 0%Qc 0%Qc userId walletAddress
                    false None (clock w) in
    (inr f, tick (with_forms (forms w ++ [f]) w)).

(** [prisma.form.update({ where: { id }, data })]: the row with that id is
    rewritten; the call fails when there is none. *)
Definition prisma_form_update (id : string) (data : Form -> Form) : M Form :=
  fun w =>
    match find (fun f => String.eqb (form_id f) id) (forms w) with
    | None => (inl (PersistenceFailure "Record to update not found."), w)
    | Some f =>
        (inr (data f),
         with_forms
           (map (fun g => if String.eqb (form_id g) id then data g else g) (forms w))
           w)
    end.

(** [prisma.form.findMany({ where: { user: { is: { profileType } } } })]. *)
Definition prisma_form_findMany_byProfile (p : ProfileType) : M (list Form) :=
  fun w =>
    (inr (List.filter
            (fun f =>
               match find (fun u => String.eqb (user_id u) (userId f)) (users w) with
               | Some u => ProfileType_eqb (profileType u) p
               | None => false
               end)
            (forms w)), w).

(** [prisma.document.create({ data })].  The database is taken to answer:
    a rejected create is outside the model. *)
Definition prisma_document_create (formId : string) (residueType : ResidueType)
    (invoicesFileName : list string) (amount : Qc) (videoFileName : option string)
    : M Document :=
  fun w =>
    let d := mkDocument (uuid (clock w)) residueType amount videoFileName
                        invoicesFileName formId (clock w) in
    (inr d, tick (with_documents (documents w ++ [d]) w)).

(** [prisma.document.aggregate({ _sum: { amount: true }, where: { OR } })]
    with one [{ formId }] alternative per given form: the sum is null when
    no row matches, and an empty [OR] matches no row. *)
Definition prisma_document_aggregate_sum_amount (OR : list string)
    : M (option Qc) :=
  fun w =>
    let rows := List.filter (fun d => existsb (String.eqb (formId d)) OR) (documents w) in
    (inr (match rows with
          | [] => None
          | _ :: _ => Some (fold_left Qcplus (map amount rows) 0%Qc)
          end), w).

(** Modelled from the spec: [UsersService.findUserByAuthUserId], which is
    not under [src/]: resolves the user by external auth identity and
    fails with NotFound if absent. *)
Definition findUserByAuthUserId (authId : string) : M User :=
  fun w =>
    match find (fun u => String.eqb (authUserId u) authId) (users w) with
    | Some u => (inr u, w)
    | None => (inl (NotFoundException MessagesHelper.USER_NOT_FOUND), w)
    end.

(** Modelled from the spec: [UsersService.findUserByUserId], which is not
    under [src/]: resolves the user by internal identity, or not-found. *)
Definition findUserByUserId (id : string) : M User :=
  fun w =>
    match find (fun u => String.eqb (user_id u) id) (users w) with
    | Some u => (inr u, w)
    | None => (inl (NotFoundException MessagesHelper.USER_NOT_FOUND), w)
    end.

(** Modelled from the spec: [DocumentsService.listDocumentsFromForm], which
    is not under [src/]: the persisted documents of a form. *)
Definition listDocumentsFromForm (id : string) : M (list Document) :=
  fun w => (inr (List.filter (fun d => String.eqb (formId d) id) (documents w)), w).

(** *** [FormsService] *)

Definition findByFormId (id : string) : M Form :=
  let* form := prisma_form_findUnique id in
  match form with
  | None => throw (NotFoundException MessagesHelper.FORM_NOT_FOUND)
  | Some form => ret form
  end.

Definition aggregateFormByUserProfile
    : M (list AggregateFormByUserProfileResponse) :=
  let* byProfile :=
    Promise_all2 (prisma_form_findMany_byProfile RECYCLER)
                 (prisma_form_findMany_byProfile WASTE_GENERATOR) in
  let allFormsByRecyclers := fst byProfile in
  let allFormsByWasteGenerators := snd byProfile in
  let* aggregates :=
    Promise_all2
      (prisma_document_aggregate_sum_amount (map form_id allFormsByRecyclers))
      (prisma_document_aggregate_sum_amount (map form_id allFormsByWasteGenerators)) in
  let aggregateRecyclerData := fst aggregates in
  let aggregateWasteGenData := snd aggregates in
  ret [ mkAggregate RECYCLER (or_zero aggregateRecyclerData);
        mkAggregate WASTE_GENERATOR (or_zero aggregateWasteGenData) ].

(** The predicate of the [some] over the entries of the submission. *)
Definition suppliesEvidence (residueProps : ResidueInput) : bool :=
  truthy (in_videoFileName residueProps)
  || negb (Nat.eqb (length (in_invoicesFileName residueProps)) 0).

Definition hasUploadedVideoOrInvoice (restFormData : list (ResidueType * ResidueInput))
    : bool :=
  existsb (fun entry => suppliesEvidence (snd entry)) restFormData.

(** The body of the callback of the [reduce] in [createForm]. *)
Definition createResidueDocument (form : Form) (allDocuments : list ResidueUpload)
    (entry : ResidueType * ResidueInput) : M (list ResidueUpload) :=
  let residueType := fst entry in
  let residueProps := snd entry in
  let* video :=
    match in_videoFileName residueProps with
    | Some (String a s) =>
        let* created :=
          createPreSignedObjectUrl (String a s) (ResidueType_value residueType)
                                   None None in
        ret (createUrl created, Some (fileName created))
    | _ => ret ("", None)
    end in
  let s3CreateVideoFileName := fst video in
  let* invoicesS3Response :=
    (if negb (Nat.eqb (length (in_invoicesFileName residueProps)) 0) then
       Promise_all
         (map (fun invoiceFile =>
                 createPreSignedObjectUrl invoiceFile
                                          (ResidueType_value residueType) None None)
              (in_invoicesFileName residueProps))
     else ret []) in
  let s3CreateInvoiceFileName := map createUrl invoicesS3Response in
  let* residueDocument :=
    prisma_document_create (form_id form) residueType
                           (map fileName invoicesS3Response)
                           (in_amount residueProps) (snd video) in
  ret (allDocuments ++
       [ mkResidueUpload s3CreateInvoiceFileName
                         (invoicesFileName residueDocument)
                         s3CreateVideoFileName
                         (videoFileName residueDocument)
                         residueType ]).

Definition createForm (input : CreateFormInput) : M CreateFormResponse :=
  let restFormData := Object_entries input in
  let* user := findUserByAuthUserId (in_authUserId input) in
  let hasEvidence := hasUploadedVideoOrInvoice restFormData in
  if negb (ProfileType_eqb (profileType user) RECYCLER)
     && negb (ProfileType_eqb (profileType user) WASTE_GENERATOR)
     && hasEvidence
  then throw (ForbiddenException
                MessagesHelper.USER_DOES_NOT_HAS_PERMISSION_TO_UPLOAD)
  else
    let* form := prisma_form_create (user_id user) (in_walletAddress input) in
    if hasEvidence then
      let* s3Data := reduce_async (createResidueDocument form) restFormData [] in
      ret (mkCreateFormResponse form s3Data)
    else ret (mkCreateFormResponse form []).

Definition authorizeForm (formId : string) (isFormAuthorized : bool) : M Form :=
  let* form := findByFormId formId in
  prisma_form_update (form_id form) (with_isFormAuthorizedByAdmin isFormAuthorized).

Definition createOnPublicObject (fileName basePath : string) : M string :=
  let publicBucket := "detrash-public" in
  let* createPublicUrl :=
    createPreSignedObjectUrl fileName "" (Some basePath) (Some publicBucket) in
  ret (createUrl createPublicUrl).

Definition submitFormImage (formId : string) : M string :=
  let* form := findByFormId formId in
  createOnPublicObject (form_id form +:+ ".png") "images".

(** The attribute list that [createFormMetadata] builds: the [reduce]
    pushes one attribute per document onto the two initial ones. *)
Definition residueAttributes (form : Form) (documents : list Document)
    : list Attribute :=
  fold_left
    (fun allAtributes residueDocument =>
       let residueTitleFormat := getResidueTitle (residueType residueDocument) in
       allAtributes ++
       [ mkAttribute (residueTitleFormat +:+ " kgs")
                     (String_of_number (amount residueDocument)) ])
    documents
    [ mkAttribute "Originating wallet" (or_else (walletAddress form) "0x0");
      mkAttribute "Audit"
                  (if isFormAuthorizedByAdmin form then "Verified"
                   else "Not Verified") ].

Definition createFormMetadata (formId : string) : M FormMetadataResponse :=
  let* form := findByFormId formId in
  let* userAndDocuments :=
    Promise_all2 (findUserByUserId (userId form)) (listDocumentsFromForm formId) in
  let user := fst userAndDocuments in
  let documents := snd userAndDocuments in
  let fileName := form_id form +:+ ".json" in
  let* createMetadataUrl := createOnPublicObject fileName "metadata" in
  match new_URL createMetadataUrl with
  | None => throw (TypeError "Invalid URL")
  | Some objectUrl =>
      let JsonMetadata :=
        mkJsonMetadata (residueAttributes form documents)
                       "RECY Report"
                       (origin objectUrl +:+ "/images/" +:+ form_id form +:+ ".png")
                       (email user) in
      let formMetadataUrl := origin objectUrl +:+ pathname objectUrl in
      let* _ := prisma_form_update formId
                                   (with_formMetadataUrl (Some formMetadataUrl)) in
      ret (mkFormMetadataResponse createMetadataUrl (JSON_stringify JsonMetadata))
  end.

(** *** Vocabulary of the properties of [createForm] and [createFormMetadata] *)

Definition storage_error (e : Exception) : Prop :=
  exists msg, e = StorageFailure msg.

(** The eligibility check of [createForm]. *)
Definition refused (user : User) (input : CreateFormInput) : bool :=
  negb (ProfileType_eqb (profileType user) RECYCLER)
  && negb (ProfileType_eqb (profileType user) WASTE_GENERATOR)
  && hasUploadedVideoOrInvoice (Object_entries input).

(** The requests one category sends to the gateway, in the order sent. *)
Definition videoRequests (entry : ResidueType * ResidueInput) : list S3Request :=
  match in_videoFileName (snd entry) with
  | Some (String a r) =>
      [ mkS3Request (String a r) (ResidueType_value (fst entry)) None None ]
  | _ => []
  end.

Definition invoiceRequests (entry : ResidueType * ResidueInput) : list S3Request :=
  map (fun invoiceFile =>
         mkS3Request invoiceFile (ResidueType_value (fst entry)) None None)
      (in_invoicesFileName (snd entry)).

Definition entryRequests (entry : ResidueType * ResidueInput) : list S3Request :=
  videoRequests entry ++ invoiceRequests entry.

(** The gateway's answers to a run of requests served one after the other
    from a given log, when all of them succeed. *)
Fixpoint s3_serve (log : list S3Request) (reqs : list S3Request)
    : option (list S3Object) :=
  match reqs with
  | [] => Some []
  | r :: rs =>
      match s3_respond log r with
      | inl _ => None
      | inr o => option_map (cons o) (s3_serve (log ++ [r]) rs)
      end
  end.

(** The Document row and the response record of one category, given the
    gateway's answers for its video and its invoices. *)
Definition documentOf (form : Form) (entry : ResidueType * ResidueInput)
    (video : option S3Object) (invoices : list S3Object) (now : nat) : Document :=
  mkDocument (uuid now) (fst entry) (in_amount (snd entry))
             (option_map fileName video) (map fileName invoices)
             (form_id form) now.

Definition uploadOf (entry : ResidueType * ResidueInput)
    (video : option S3Object) (invoices : list S3Object) : ResidueUpload :=
  mkResidueUpload (map createUrl invoices) (map fileName invoices)
                  (match video with Some o => createUrl o | None => "" end)
                  (option_map fileName video) (fst entry).

(** The answers for one category: at most one for the video, then one per
    invoice, all served in that order from [log]. *)
Definition answered (log : list S3Request) (entry : ResidueType * ResidueInput)
    (video : option S3Object) (invoices : list S3Object) : Prop :=
  s3_serve log (videoRequests entry)
    = Some (match video with Some o => [o] | None => [] end)
  /\ (truthy (in_videoFileName (snd entry)) = true <-> video <> None)
  /\ s3_serve (log ++ videoRequests entry) (invoiceRequests entry) = Some invoices.

(** What the [reduce] of [createForm] has done when it ends well: one
    Document and one response record per entry, in entry order, built from
    the gateway's answers to that entry's requests. *)
Definition dispatched (form : Form) (entries : list (ResidueType * ResidueInput))
    (w w' : World) (ups : list ResidueUpload) : Prop :=
  exists docs : list Document,
    length docs = length entries
    /\ length ups = length entries
    /\ documents w' = documents w ++ docs
    /\ forms w' = forms w
    /\ users w' = users w
    /\ s3Log w' = s3Log w ++ concat (map entryRequests entries)
    /\ clock w' = clock w + length entries
    /\ forall k entry, entries !! k = Some entry ->
         exists video invoices,
           answered (s3Log w ++ concat (map entryRequests (take k entries)))
                    entry video invoices
           /\ ups !! k = Some (uploadOf entry video invoices)
           /\ docs !! k = Some (documentOf form entry video invoices (clock w + k)).

(** The log of the gateway when the dispatch of [createForm] reaches the
    [k]-th category: the log at the call, then the requests of the
    categories before it. *)
Definition logBefore (input : CreateFormInput) (w : World) (k : nat)
    : list S3Request :=
  s3Log w ++ concat (map entryRequests (take k (Object_entries input))).

(** The request [createFormMetadata] sends for the form [formId]. *)
Definition metadataRequest (formId : string) : S3Request :=
  mkS3Request (formId +:+ ".json") "" (Some "metadata") (Some "detrash-public").

(** *** The other operations of the service *)

(** [orderBy: { createdAt: 'desc' }]: the rows from the newest to the
    oldest; rows created at the same time keep the order of the table. *)
Fixpoint insert_newest_first (f : Form) (l : list Form) : list Form :=
  match l with
  | [] => [f]
  | g :: l' =>
      if Nat.leb (form_createdAt g) (form_createdAt f) then f :: l
      else g :: insert_newest_first f l'
  end.

Definition orderBy_createdAt_desc (l : list Form) : list Form :=
  fold_right insert_newest_first [] l.

(** [prisma.form.findMany({ orderBy: { createdAt: 'desc' } })]. *)
Definition prisma_form_findMany_newest_first : M (list Form) :=
  fun w => (inr (orderBy_createdAt_desc (forms w)), w).

(** [prisma.form.findMany({ where: { userId } })]. *)
Definition prisma_form_findMany_byUserId (uid : string) : M (list Form) :=
  fun w => (inr (List.filter (fun f => String.eqb (userId f) uid) (forms w)), w).

Definition listAllForms : M (list Form) :=
  prisma_form_findMany_newest_first.

Definition listAllFromUserByUserId (userId : string) : M (list Form) :=
  prisma_form_findMany_byUserId userId.

(** The [_sum] object of [prisma.form.aggregate] over the five quantity
    columns: each sum is null when no row matches. *)
Record FormSums : Type := mkFormSums {
  sum_glassKgs : option Qc;
  sum_metalKgs : option Qc;
  sum_organicKgs : option Qc;
  sum_paperKgs : option Qc;
  sum_plasticKgs : option Qc
}.

(** The sum of one column over the rows, null without a row. *)
Definition sum_column (column : Form -> Qc) (rows : list Form) : option Qc :=
  match rows with
  | [] => None
  | _ :: _ => Some (fold_left Qcplus (map column rows) 0%Qc)
  end.

(** [prisma.form.aggregate({ _sum: { glassKgs: true, metalKgs: true,
    organicKgs: true, paperKgs: true, plasticKgs: true },
    where: { user: { is: { profileType } } } })]. *)
Definition prisma_form_aggregate_sum_kgs (p : ProfileType) : M FormSums :=
  fun w =>
    let rows :=
      List.filter
        (fun f =>
           match find (fun u => String.eqb (user_id u) (userId f)) (users w) with
           | Some u => ProfileType_eqb (profileType u) p
           | None => false
           end)
        (forms w) in
    (inr (mkFormSums (sum_column glassKgs rows) (sum_column metalKgs rows)
                     (sum_column organicKgs rows) (sum_column paperKgs rows)
                     (sum_column plasticKgs rows)), w).

(** One element of the list that [listFormDetails] returns. *)
Record FormDetails : Type := mkFormDetails {
  details_id : ProfileType;
  details_data : FormSums
}.

(** [listFormDetails] of the older copy of the service: the report over the
    quantity columns of the Form rows. *)
Definition listFormDetails : M (list FormDetails) :=
  let* aggregates :=
    Promise_all2 (prisma_form_aggregate_sum_kgs RECYCLER)
                 (prisma_form_aggregate_sum_kgs WASTE_GENERATOR) in
  let aggregateRecyclerData := fst aggregates in
  let aggregateWasteGenData := snd aggregates in
  ret [ mkFormDetails RECYCLER aggregateRecyclerData;
        mkFormDetails WASTE_GENERATOR aggregateWasteGenData ].

(** *** Vocabulary of the properties of the other operations *)

(** Two Form rows that agree on every column but the metadata URL. *)
Definition same_but_metadataUrl (g g' : Form) : Prop :=
  form_id g' = form_id g
  /\ plasticKgs g' = plasticKgs g
  /\ paperKgs g' = paperKgs g
  /\ metalKgs g' = metalKgs g
  /\ glassKgs g' = glassKgs g
  /\ organicKgs g' = organicKgs g
  /\ userId g' = userId g
  /\ walletAddress g' = walletAddress g
  /\ isFormAuthorizedByAdmin g' = isFormAuthorizedByAdmin g
  /\ form_createdAt g' = form_createdAt g.

(** The request [submitFormImage] sends for the form [formId]. *)
Definition imageRequest (formId : string) : S3Request :=
  mkS3Request (formId +:+ ".png") "" (Some "images") (Some "detrash-public").

(** The forms table after the metadata URL [url] is stored on [formId]. *)
Definition storeMetadataUrl (formId url : string) (fs : list Form) : list Form :=
  map (fun g => if String.eqb (form_id g) formId
                then with_formMetadataUrl (Some url) g else g) fs.

(** The forms table after the flag [b] is stored on [formId]. *)
Definition storeAuthorization (formId : string) (b : bool) (fs : list Form)
    : list Form :=
  map (fun g => if String.eqb (form_id g) formId
                then with_isFormAuthorizedByAdmin b g else g) fs.

(** The sum of one quantity column over the Forms of a profile type. *)
Definition kgsOfProfile (column : Form -> Qc) (w : World) (p : ProfileType) : Qc :=
  fold_right Qcplus 0%Qc (map column (List.filter (formOfProfile w p) (forms w))).

(** The number of files a category asks to upload. *)
Definition filesOf (entry : ResidueType * ResidueInput) : nat :=
  (if truthy (in_videoFileName (snd entry)) then 1 else 0)
  + length (in_invoicesFileName (snd entry)).

(** What [listFormDetails] reports for one column and one profile type:
    nothing when no Form belongs to a user of that profile type, the sum of
    the column over those Forms otherwise. *)
Definition reportsColumn (column : Form -> Qc) (w : World) (p : ProfileType)
    (s : option Qc) : Prop :=
  match List.filter (formOfProfile w p) (forms w) with
  | [] => s = None
  | _ :: _ => s = Some (kgsOfProfile column w p)
  end.

Definition reportsSums (w : World) (p : ProfileType) (s : FormSums) : Prop :=
  reportsColumn glassKgs w p (sum_glassKgs s)
  /\ reportsColumn metalKgs w p (sum_metalKgs s)
  /\ reportsColumn organicKgs w p (sum_organicKgs s)
  /\ reportsColumn paperKgs w p (sum_paperKgs s)
  /\ reportsColumn plasticKgs w p (sum_plasticKgs s).

(** Newest first. *)
Definition newer_or_same (f g : Form) : Prop :=
  form_createdAt g <= form_createdAt f.

(** The amounts of a submission, added up over the five categories. *)
Definition submittedAmount (input : CreateFormInput) : Qc :=
  (in_amount (in_GLASS input) + in_amount (in_METAL input)
   + in_amount (in_ORGANIC input) + in_amount (in_PAPER input)
   + in_amount (in_PLASTIC input))%Qc.

(** * Properties *)

(** ** Equality tests *)

Lemma ProfileType_eqb_eq (a b : ProfileType) :
  ProfileType_eqb a b = true <-> a = b.
Proof.
  destruct a as [| |x], b as [| |y]; simpl; split; intros H;
    try reflexivity; try discriminate.
  - apply String.eqb_eq in H. now subst.
  - injection H as ->. apply String.eqb_refl.
Qed.

Lemma ProfileType_eqb_neq (a b : ProfileType) :
  ProfileType_eqb a b = false <-> a <> b.
Proof.
  rewrite <- ProfileType_eqb_eq. destruct (ProfileType_eqb a b); split;
    intros H; congruence.
Qed.

Lemma suppliesEvidence_false (p : ResidueInput) :
  suppliesEvidence p = false <->
  (in_videoFileName p = None \/ in_videoFileName p = Some "")
  /\ in_invoicesFileName p = [].
Proof.
  unfold suppliesEvidence, truthy.
  destruct (in_videoFileName p) as [[|c s]|], (in_invoicesFileName p) as [|x l];
    simpl; split; intros H; try discriminate; try reflexivity; auto;
    destruct H as [[H|H] H']; discriminate.
Qed.

Lemma hasUploadedVideoOrInvoice_false (l : list (ResidueType * ResidueInput)) :
  hasUploadedVideoOrInvoice l = false <->
  Forall (fun entry =>
            (in_videoFileName (snd entry) = None
             \/ in_videoFileName (snd entry) = Some "")
            /\ in_invoicesFileName (snd entry) = []) l.
Proof.
  unfold hasUploadedVideoOrInvoice. induction l as [|e l IH]; simpl.
  - split; [constructor | reflexivity].
  - rewrite orb_false_iff, IH, suppliesEvidence_false. split.
    + intros [H1 H2]. now constructor.
    + intros H. inversion H; subst. now split.
Qed.

(** *** Which exceptions the dispatch can end in *)

Lemma createPreSignedObjectUrl_error f r b k w e w' :
  createPreSignedObjectUrl f r b k w = (inl e, w') -> storage_error e.
Proof.
  unfold createPreSignedObjectUrl.
  destruct (s3_respond _ _) as [msg|o]; intros H; inversion H; subst.
  now exists msg.
Qed.

Lemma Promise_all_error {A} (P : Exception -> Prop) (ps : list (M A)) :
  Forall (fun p => forall w e w', p w = (inl e, w') -> P e) ps ->
  forall w e w', Promise_all ps w = (inl e, w') -> P e.
Proof.
  induction 1 as [|p ps Hp _ IH]; simpl; intros w e w' H.
  - discriminate.
  - destruct (p w) as [r w1] eqn:Ep.
    destruct (Promise_all ps w1) as [rs w2] eqn:Eps.
    destruct r as [e1|a].
    + inversion H; subst. eapply Hp; eauto.
    + destruct rs as [e2|l]; inversion H; subst. eapply IH; eauto.
Qed.

Lemma reduce_async_error {A B} (P : Exception -> Prop) (f : A -> B -> M A) :
  (forall acc x w e w', f acc x w = (inl e, w') -> P e) ->
  forall l acc w e w', reduce_async f l acc w = (inl e, w') -> P e.
Proof.
  intros Hf. induction l as [|x l IH]; simpl; intros acc w e w' H.
  - discriminate.
  - unfold bind in H. destruct (f acc x w) as [[e1|acc'] w1] eqn:E.
    + inversion H; subst. eauto.
    + eauto.
Qed.

Lemma invoices_dispatch_error names rt w e w' :
  Promise_all
    (map (fun invoiceFile => createPreSignedObjectUrl invoiceFile rt None None)
         names) w = (inl e, w') ->
  storage_error e.
Proof.
  apply (Promise_all_error storage_error).
  apply List.Forall_forall. intros p Hp. apply in_map_iff in Hp.
  destruct Hp as [x [<- _]].
  intros ? ? ?. apply createPreSignedObjectUrl_error.
Qed.

Lemma createResidueDocument_error form all entry w e w' :
  createResidueDocument form all entry w = (inl e, w') -> storage_error e.
Proof.
  unfold createResidueDocument, bind.
  assert (Hrest : forall (video : string * option string) w1,
    (let '(r, w2) :=
       (if negb (Nat.eqb (length (in_invoicesFileName (snd entry))) 0)
        then Promise_all
               (map (fun invoiceFile =>
                       createPreSignedObjectUrl invoiceFile
                         (ResidueType_value (fst entry)) None None)
                    (in_invoicesFileName (snd entry)))
        else ret []) w1 in
     match r with
     | inl e0 => (inl e0, w2)
     | inr invoicesS3Response =>
         match prisma_document_create (form_id form) (fst entry)
                 (map fileName invoicesS3Response) (in_amount (snd entry))
                 (snd video) w2 with
         | (inl e0, w3) => (inl e0, w3)
         | (inr residueDocument, w3) =>
             ret (all ++ [mkResidueUpload (map createUrl invoicesS3Response)
                            (invoicesFileName residueDocument) (fst video)
                            (videoFileName residueDocument) (fst entry)]) w3
         end
     end) = (inl e, w') -> storage_error e).
  { intros video w1. destruct (negb _).
    - destruct (Promise_all _ w1) as [[e2|l] w2] eqn:E2.
      + intros H; inversion H; subst. eapply invoices_dispatch_error; eauto.
      + discriminate.
    - discriminate. }
  destruct (in_videoFileName (snd entry)) as [[|a s]|].
  - apply Hrest.
  - destruct (createPreSignedObjectUrl _ _ _ _ w) as [[e1|o] w1] eqn:E1.
    + intros H; inversion H; subst.
      eapply createPreSignedObjectUrl_error; eauto.
    + apply Hrest.
  - apply Hrest.
Qed.

Lemma refused_true user input :
  refused user input = true <->
  hasUploadedVideoOrInvoice (Object_entries input) = true
  /\ profileType user <> RECYCLER
  /\ profileType user <> WASTE_GENERATOR.
Proof.
  unfold refused.
  rewrite !andb_true_iff, !negb_true_iff, !ProfileType_eqb_neq. tauto.
Qed.

(** [createForm] by cases: uploader unknown, refused, or let through. *)
Lemma createForm_unresolved input w :
  find (fun u => String.eqb (authUserId u) (in_authUserId input)) (users w)
    = None ->
  createForm input w = (inl (NotFoundException MessagesHelper.USER_NOT_FOUND), w).
Proof.
  intros Hu. unfold createForm, bind at 1, findUserByAuthUserId.
  now rewrite Hu.
Qed.

Lemma createForm_refused input w user :
  find (fun u => String.eqb (authUserId u) (in_authUserId input)) (users w)
    = Some user ->
  refused user input = true ->
  createForm input w =
    (inl (ForbiddenException
            MessagesHelper.USER_DOES_NOT_HAS_PERMISSION_TO_UPLOAD), w).
Proof.
  intros Hu Hr. unfold createForm, bind at 1, findUserByAuthUserId.
  rewrite Hu. unfold refused in Hr. now rewrite Hr.
Qed.

Lemma createForm_allowed input w user :
  find (fun u => String.eqb (authUserId u) (in_authUserId input)) (users w)
    = Some user ->
  refused user input = false ->
  createForm input w =
    (let* form := prisma_form_create (user_id user) (in_walletAddress input) in
     if hasUploadedVideoOrInvoice (Object_entries input) then
       let* s3Data :=
         reduce_async (createResidueDocument form) (Object_entries input) [] in
       ret (mkCreateFormResponse form s3Data)
     else ret (mkCreateFormResponse form [])) w.
Proof.
  intros Hu Hr. unfold createForm, bind at 1, findUserByAuthUserId.
  rewrite Hu. unfold refused in Hr. now rewrite Hr.
Qed.

Lemma createForm_allowed_error input w user e :
  find (fun u => String.eqb (authUserId u) (in_authUserId input)) (users w)
    = Some user ->
  refused user input = false ->
  fst (createForm input w) = inl e -> storage_error e.
Proof.
  intros Hu Hr. rewrite (createForm_allowed _ _ _ Hu Hr).
  unfold bind at 1, prisma_form_create.
  destruct (hasUploadedVideoOrInvoice _); [|discriminate].
  unfold bind, ret.
  match goal with |- context [reduce_async ?f ?l ?a ?w] =>
    destruct (reduce_async f l a w) as [[e1|s3Data] w1] eqn:E end;
    simpl; intros H; inversion H; subst.
  eapply (reduce_async_error storage_error); [|exact E].
  intros. eapply createResidueDocument_error; eauto.
Qed.

(** C1.  [createForm] fails with Forbidden exactly when the uploader is
    resolved, some category supplies evidence (a non-empty video file name
    or a non-empty list of invoice file names) and the uploader's profile
    type is neither RECYCLER nor WASTE_GENERATOR.  When it does, the world
    is left as it was: no Form row and no Document row is written.  A
    submission without evidence never fails with Forbidden. *)
Theorem createForm_forbidden_iff (input : CreateFormInput) (w : World) :
  ((exists msg, fst (createForm input w) = inl (ForbiddenException msg))
   <->
   (exists user,
      findUserByAuthUserId (in_authUserId input) w = (inr user, w)
      /\ hasUploadedVideoOrInvoice (Object_entries input) = true
      /\ profileType user <> RECYCLER
      /\ profileType user <> WASTE_GENERATOR))
  /\ ((exists msg, fst (createForm input w) = inl (ForbiddenException msg))
      -> snd (createForm input w) = w)
  /\ (hasUploadedVideoOrInvoice (Object_entries input) = false
      -> forall msg, fst (createForm input w) <> inl (ForbiddenException msg)).
Proof.
  assert (Hnot : forall user,
    find (fun u => String.eqb (authUserId u) (in_authUserId input)) (users w)
      = Some user ->
    refused user input = false ->
    forall msg, fst (createForm input w) <> inl (ForbiddenException msg)).
  { intros user Hu Hr msg H.
    destruct (createForm_allowed_error _ _ _ _ Hu Hr H) as [m Hm].
    discriminate. }
  unfold findUserByAuthUserId.
  destruct (find (fun u => String.eqb (authUserId u) (in_authUserId input))
                 (users w)) as [user|] eqn:Hu.
  - destruct (refused user input) eqn:Hr.
    + rewrite (createForm_refused _ _ _ Hu Hr). cbn [fst snd].
      apply refused_true in Hr. destruct Hr as [H1 [H2 H3]].
      repeat split.
      * intros _. exists user. auto.
      * intros _. eexists; reflexivity.
      * intros H. congruence.
    + specialize (Hnot user eq_refl Hr). repeat split.
      * intros [msg H]. now apply Hnot in H.
      * intros [u [Hf H]]. inversion Hf; subst.
        apply refused_true in H. congruence.
      * intros [msg H]. now apply Hnot in H.
      * intros _. exact Hnot.
  - rewrite (createForm_unresolved _ _ Hu). cbn [fst snd]. repeat split.
    + intros [msg H]; discriminate.
    + intros [u [Hf _]]; discriminate.
    + intros _ msg H; discriminate.
Qed.

(** *** What a successful dispatch has done *)

Lemma s3_serve_lookup reqs : forall log objs,
  s3_serve log reqs = Some objs ->
  length objs = length reqs
  /\ forall i r, reqs !! i = Some r ->
       exists o, objs !! i = Some o /\ s3_respond (log ++ take i reqs) r = inr o.
Proof.
  induction reqs as [|r0 rs IH]; simpl; intros log objs H.
  - inversion H; subst. split; [reflexivity|]. intros i r Hi.
    now rewrite lookup_nil in Hi.
  - destruct (s3_respond log r0) as [msg|o0] eqn:E0; [discriminate|].
    destruct (s3_serve (log ++ [r0]) rs) as [os|] eqn:Es; [|discriminate].
    inversion H; subst. destruct (IH _ _ Es) as [Hlen Hnth].
    split; [simpl; congruence|].
    intros [|i] r Hi; simpl in Hi.
    + inversion Hi; subst. exists o0. simpl. now rewrite app_nil_r.
    + destruct (Hnth i r Hi) as [o [Ho Hr]]. exists o. split; [exact Ho|].
      simpl. now rewrite <- app_assoc in Hr.
Qed.

Lemma invoices_dispatch names rt : forall w res w',
  Promise_all
    (map (fun invoiceFile => createPreSignedObjectUrl invoiceFile rt None None)
         names) w = (res, w') ->
  let reqs := map (fun invoiceFile => mkS3Request invoiceFile rt None None) names in
  w' = with_s3Log (s3Log w ++ reqs) w
  /\ forall objs, res = inr objs -> s3_serve (s3Log w) reqs = Some objs.
Proof.
  induction names as [|n names IH]; simpl; intros w res w' H.
  - unfold ret in H. inversion H; subst. split.
    + destruct w'; unfold with_s3Log; simpl. now rewrite app_nil_r.
    + intros objs Ho. now inversion Ho.
  - unfold createPreSignedObjectUrl at 1 in H.
    set (req := mkS3Request n rt None None) in *.
    destruct (s3_respond (s3Log w) req) as [msg|o] eqn:E.
    + destruct (Promise_all _ (with_s3Log (s3Log w ++ [req]) w))
        as [rs w2] eqn:Eps.
      inversion H; subst. destruct (IH _ _ _ Eps) as [Hw _]. split.
      * rewrite Hw. destruct w; unfold with_s3Log; simpl.
        now rewrite <- app_assoc.
      * intros objs Ho; discriminate.
    + destruct (Promise_all _ (with_s3Log (s3Log w ++ [req]) w))
        as [rs w2] eqn:Eps.
      destruct (IH _ _ _ Eps) as [Hw Hs]. split.
      * inversion H; subst. destruct w; unfold with_s3Log; simpl.
        now rewrite <- app_assoc.
      * intros objs Ho. destruct rs as [e|l]; inversion H; subst;
          [discriminate|]. inversion H1; subst.
        simpl in Hs. rewrite (Hs l eq_refl). reflexivity.
Qed.

Lemma createResidueDocument_ok form all entry w out w' :
  createResidueDocument form all entry w = (inr out, w') ->
  exists video invoices,
    answered (s3Log w) entry video invoices
    /\ out = all ++ [uploadOf entry video invoices]
    /\ w' = mkWorld (forms w)
                    (documents w ++ [documentOf form entry video invoices (clock w)])
                    (users w)
                    (s3Log w ++ entryRequests entry)
                    (S (clock w)).
Proof.
  destruct entry as [rt props].
  unfold createResidueDocument, bind, answered, entryRequests,
    videoRequests, invoiceRequests. cbn [fst snd].
  assert (Hinv : forall w1 res w2,
    (if negb (Nat.eqb (length (in_invoicesFileName props)) 0)
     then Promise_all
            (map (fun invoiceFile =>
                    createPreSignedObjectUrl invoiceFile (ResidueType_value rt)
                                             None None)
                 (in_invoicesFileName props))
     else ret []) w1 = (res, w2) ->
    let reqs := map (fun invoiceFile =>
                       mkS3Request invoiceFile (ResidueType_value rt) None None)
                    (in_invoicesFileName props) in
    w2 = with_s3Log (s3Log w1 ++ reqs) w1
    /\ forall objs, res = inr objs -> s3_serve (s3Log w1) reqs = Some objs).
  { intros w1 res w2. destruct (in_invoicesFileName props) as [|n ns] eqn:En.
    - simpl. unfold ret. intros H; inversion H; subst. split.
      + destruct w2; unfold with_s3Log; simpl. now rewrite app_nil_r.
      + intros objs Ho. now inversion Ho.
    - cbn [length Nat.eqb negb]. apply invoices_dispatch. }
  destruct (in_videoFileName props) as [[|a r]|] eqn:Ev; cbn [truthy].
  - (* an empty video file name *)
    unfold ret at 1.
    match goal with |- context [(if ?c then ?x else ?y) w] =>
      destruct ((if c then x else y) w) as [[e|objs] w1] eqn:E end;
      [discriminate|].
    destruct (Hinv _ _ _ E) as [Hw Hs]. specialize (Hs objs eq_refl).
    unfold prisma_document_create, ret. intros H; inversion H; subst.
    exists None, objs. rewrite app_nil_r.
    repeat split; try assumption; try discriminate; try congruence.
  - (* a video file name *)
    unfold createPreSignedObjectUrl at 1.
    set (req := mkS3Request (String a r) (ResidueType_value rt) None None).
    destruct (s3_respond (s3Log w) req) as [msg|o] eqn:Eo; [discriminate|].
    unfold ret at 1. cbn [fst snd].
    match goal with |- context [(if ?c then ?x else ?y) ?w0] =>
      destruct ((if c then x else y) w0) as [[e|objs] w1] eqn:E end;
      [discriminate|].
    destruct (Hinv _ _ _ E) as [Hw Hs]. specialize (Hs objs eq_refl).
    unfold prisma_document_create, ret. intros H; inversion H; subst.
    exists (Some o), objs.
    repeat split; try assumption; try discriminate; try congruence.
    + simpl. now rewrite Eo.
    + destruct w; unfold with_s3Log, tick, with_documents; simpl.
      now rewrite <- app_assoc.
  - (* no video file name *)
    unfold ret at 1.
    match goal with |- context [(if ?c then ?x else ?y) w] =>
      destruct ((if c then x else y) w) as [[e|objs] w1] eqn:E end;
      [discriminate|].
    destruct (Hinv _ _ _ E) as [Hw Hs]. specialize (Hs objs eq_refl).
    unfold prisma_document_create, ret. intros H; inversion H; subst.
    exists None, objs. rewrite app_nil_r.
    repeat split; try assumption; try discriminate; try congruence.
Qed.

Lemma reduce_createResidueDocument_ok form entries : forall acc w out w',
  reduce_async (createResidueDocument form) entries acc w = (inr out, w') ->
  exists ups, out = acc ++ ups /\ dispatched form entries w w' ups.
Proof.
  induction entries as [|e0 rest IH]; intros acc w out w' H.
  - simpl in H. unfold ret in H. inversion H; subst.
    exists []. split; [now rewrite app_nil_r|]. exists [].
    simpl. rewrite !app_nil_r, Nat.add_0_r. repeat split.
    intros k entry Hk. now rewrite lookup_nil in Hk.
  - simpl in H. unfold bind in H.
    destruct (createResidueDocument form acc e0 w) as [[e|acc1] w1] eqn:E0;
      [discriminate|].
    apply createResidueDocument_ok in E0.
    destruct E0 as [video [invoices [Hans [Hacc1 Hw1]]]].
    destruct (IH _ _ _ _ H) as [ups [Hout Hrest]].
    destruct Hrest as [docs [Hld [Hlu [Hd [Hf [Hu [Hl [Hc Hk]]]]]]]].
    subst acc1 w1. cbn [documents forms users s3Log clock] in *.
    exists (uploadOf e0 video invoices :: ups). split.
    { rewrite Hout, <- app_assoc. reflexivity. }
    exists (documentOf form e0 video invoices (clock w) :: docs).
    cbn [length map concat]. repeat split; try congruence.
    + rewrite Hd, <- app_assoc. reflexivity.
    + rewrite Hl, <- app_assoc. reflexivity.
    + rewrite Hc. lia.
    + intros [|k] entry Hentry; cbn [lookup list_lookup take map concat] in *.
      * inversion Hentry; subst. exists video, invoices.
        rewrite app_nil_r, Nat.add_0_r. auto.
      * simpl in Hentry. destruct (Hk k entry Hentry) as [v [i [Ha [Hup Hdoc]]]].
        exists v, i. simpl. rewrite <- app_assoc in Ha.
        replace (clock w + S k) with (S (clock w) + k) by lia. auto.
Qed.

(** What a call of [createForm] that returns has done. *)
Lemma createForm_ok input w resp w' :
  createForm input w = (inr resp, w') ->
  exists user,
    find (fun u => String.eqb (authUserId u) (in_authUserId input)) (users w)
      = Some user
    /\ refused user input = false
    /\ form resp = mkForm (uuid (clock w)) 0%Qc 0%Qc 0%Qc 0%Qc 0%Qc (user_id user)
                          (in_walletAddress input) false None (clock w)
    /\ forms w' = forms w ++ [form resp]
    /\ users w' = users w
    /\ if hasUploadedVideoOrInvoice (Object_entries input)
       then dispatched (form resp) (Object_entries input)
                       (tick (with_forms (forms w ++ [form resp]) w)) w' (s3 resp)
       else s3 resp = [] /\ documents w' = documents w
            /\ s3Log w' = s3Log w /\ clock w' = S (clock w).
Proof.
  destruct (find (fun u => String.eqb (authUserId u) (in_authUserId input))
                 (users w)) as [user|] eqn:Hu.
  2:{ rewrite (createForm_unresolved _ _ Hu). discriminate. }
  destruct (refused user input) eqn:Hr.
  1:{ rewrite (createForm_refused _ _ _ Hu Hr). discriminate. }
  rewrite (createForm_allowed _ _ _ Hu Hr).
  unfold bind at 1, prisma_form_create.
  set (f := mkForm _ _ _ _ _ _ _ _ _ _ _).
  destruct (hasUploadedVideoOrInvoice (Object_entries input)) eqn:Hev.
  - unfold bind, ret.
    destruct (reduce_async (createResidueDocument f) (Object_entries input) []
                           (tick (with_forms (forms w ++ [f]) w)))
      as [[e|s3Data] w1] eqn:E; [discriminate|].
    intros H; inversion H; subst resp w'. clear H.
    apply reduce_createResidueDocument_ok in E.
    destruct E as [ups [Hout Hd]]. simpl in Hout. subst s3Data.
    exists user. cbn [form s3]. repeat split; try assumption.
    + destruct Hd as [docs [_ [_ [_ [Hf _]]]]]. exact Hf.
    + destruct Hd as [docs [_ [_ [_ [_ [Hus _]]]]]]. exact Hus.
  - unfold ret. intros H; inversion H; subst resp w'. clear H.
    exists user. cbn. repeat split; assumption.
Qed.

Lemma answered_invoices log entry video invoices :
  answered log entry video invoices ->
  length invoices = length (in_invoicesFileName (snd entry))
  /\ forall i name, in_invoicesFileName (snd entry) !! i = Some name ->
       exists o,
         invoices !! i = Some o
         /\ s3_respond (log ++ videoRequests entry ++ take i (invoiceRequests entry))
                       (mkS3Request name (ResidueType_value (fst entry)) None None)
            = inr o.
Proof.
  intros [_ [_ Hs]]. apply s3_serve_lookup in Hs. destruct Hs as [Hlen Hnth].
  unfold invoiceRequests in *. rewrite length_map in Hlen.
  split; [exact Hlen|]. intros i name Hi.
  destruct (Hnth i (mkS3Request name (ResidueType_value (fst entry)) None None))
    as [o [Ho Hr]].
  - rewrite list_lookup_fmap, Hi. reflexivity.
  - exists o. split; [exact Ho|]. now rewrite <- app_assoc in Hr.
Qed.

Lemma answered_video log entry video invoices :
  answered log entry video invoices ->
  match in_videoFileName (snd entry) with
  | Some (String a r) =>
      exists o,
        video = Some o
        /\ s3_respond log (mkS3Request (String a r) (ResidueType_value (fst entry))
                                       None None) = inr o
  | _ => video = None
  end.
Proof.
  intros [Hv [Ht _]]. unfold videoRequests, truthy in *.
  destruct (in_videoFileName (snd entry)) as [[|a r]|].
  - destruct video; [|reflexivity]. destruct Ht as [_ Ht].
    discriminate Ht. discriminate.
  - simpl in Hv. destruct (s3_respond log _) as [msg|o]; [discriminate|].
    exists o. split; [|reflexivity].
    destruct video as [o'|]; simpl in Hv; congruence.
  - destruct video; [|reflexivity]. destruct Ht as [_ Ht].
    discriminate Ht. discriminate.
Qed.

(** The rows and records of a call of [createForm] that returns, whether
    or not evidence was supplied. *)
Lemma createForm_rows input w resp w' :
  createForm input w = (inr resp, w') ->
  exists docs,
    documents w' = documents w ++ docs
    /\ length docs = length (s3 resp)
    /\ (if hasUploadedVideoOrInvoice (Object_entries input)
        then length docs = length (Object_entries input)
        else docs = [])
    /\ forall k, k < length docs ->
         exists entry video invoices,
           Object_entries input !! k = Some entry
           /\ answered (s3Log w
                        ++ concat (map entryRequests (take k (Object_entries input))))
                       entry video invoices
           /\ s3 resp !! k = Some (uploadOf entry video invoices)
           /\ docs !! k
              = Some (documentOf (form resp) entry video invoices (S (clock w) + k)).
Proof.
  intros H. destruct (createForm_ok _ _ _ _ H)
    as [user [Hu [Hr [Hform [Hforms [Husers Hcase]]]]]].
  destruct (hasUploadedVideoOrInvoice (Object_entries input)).
  - destruct Hcase as [docs [Hld [Hlu [Hd [_ [_ [_ [_ Hk]]]]]]]].
    cbn [documents s3Log clock tick with_forms] in *.
    exists docs. repeat split; try congruence.
    intros k Hlt. rewrite Hld in Hlt.
    destruct (lookup_lt_is_Some_2 _ _ Hlt) as [entry Hentry].
    destruct (Hk k entry Hentry) as [v [i Hfacts]]. exists entry, v, i. auto.
  - destruct Hcase as [Hs3 [Hd _]]. exists []. rewrite app_nil_r, Hs3.
    repeat split; try assumption. simpl. intros k Hlt. lia.
Qed.

(** C2.  When no category supplies a video file name (none, or an empty
    one) and every category's list of invoice file names is empty,
    [createForm] sends nothing to the storage gateway and writes no
    Document row, whatever its outcome; and once the uploader is resolved
    it returns the new Form with an empty evidence list, the Form row
    being the one thing added to the world. *)
Theorem createForm_without_evidence (input : CreateFormInput) (w : World) :
  Forall (fun entry =>
            (in_videoFileName (snd entry) = None
             \/ in_videoFileName (snd entry) = Some "")
            /\ in_invoicesFileName (snd entry) = [])
         (Object_entries input) ->
  s3Log (snd (createForm input w)) = s3Log w
  /\ documents (snd (createForm input w)) = documents w
  /\ forall user,
       findUserByAuthUserId (in_authUserId input) w = (inr user, w) ->
       exists form,
         createForm input w
           = (inr (mkCreateFormResponse form []),
              mkWorld (forms w ++ [form]) (documents w) (users w) (s3Log w)
                      (S (clock w)))
         /\ userId form = user_id user
         /\ walletAddress form = in_walletAddress input.
Proof.
  intros Hnone. apply hasUploadedVideoOrInvoice_false in Hnone.
  unfold findUserByAuthUserId.
  destruct (find (fun u => String.eqb (authUserId u) (in_authUserId input))
                 (users w)) as [user|] eqn:Hu.
  - assert (Hr : refused user input = false).
    { unfold refused. rewrite Hnone. now rewrite andb_false_r. }
    rewrite (createForm_allowed _ _ _ Hu Hr).
    unfold bind, prisma_form_create, ret. rewrite Hnone. cbn.
    repeat split. intros u Heq. inversion Heq; subst u.
    eexists. repeat split.
  - rewrite (createForm_unresolved _ _ Hu). cbn [fst snd].
    repeat split. intros u Heq. discriminate.
Qed.

(** C3.  When some category supplies evidence and [createForm] returns,
    it has written exactly five Document rows, one for each residue
    category in the order GLASS, METAL, ORGANIC, PAPER, PLASTIC, all owned
    by the new Form -- whatever the amount and the evidence of each
    category, so also for a category with amount zero and no file
    names. *)
Theorem createForm_one_document_per_category
    (input : CreateFormInput) (w w' : World) (resp : CreateFormResponse) :
  hasUploadedVideoOrInvoice (Object_entries input) = true ->
  createForm input w = (inr resp, w') ->
  exists docs,
    documents w' = documents w ++ docs
    /\ map residueType docs = [GLASS; METAL; ORGANIC; PAPER; PLASTIC]
    /\ Forall (fun d => formId d = form_id (form resp)) docs.
Proof.
  intros Hev H. destruct (createForm_rows _ _ _ _ H) as [docs [Hd [_ [Hlen Hk]]]].
  rewrite Hev in Hlen. exists docs. split; [exact Hd|].
  assert (Hall : forall k d, docs !! k = Some d ->
            exists entry, Object_entries input !! k = Some entry
                          /\ residueType d = fst entry
                          /\ formId d = form_id (form resp)).
  { intros k d Hkd. destruct (Hk k) as [entry [v [i [He [_ [_ Hdoc]]]]]].
    - eapply lookup_lt_Some; eauto.
    - rewrite Hkd in Hdoc. inversion Hdoc; subst d. exists entry. auto. }
  split.
  - destruct docs as [|d0 [|d1 [|d2 [|d3 [|d4 [|d5 ds]]]]]]; try discriminate.
    destruct (Hall 0 d0 eq_refl) as [e0 [E0 [R0 _]]].
    destruct (Hall 1 d1 eq_refl) as [e1 [E1 [R1 _]]].
    destruct (Hall 2 d2 eq_refl) as [e2 [E2 [R2 _]]].
    destruct (Hall 3 d3 eq_refl) as [e3 [E3 [R3 _]]].
    destruct (Hall 4 d4 eq_refl) as [e4 [E4 [R4 _]]].
    inversion E0; inversion E1; inversion E2; inversion E3; inversion E4.
    subst. cbn [fst map] in *. congruence.
  - apply List.Forall_forall. intros d Hin.
    apply list_elem_of_In, list_elem_of_lookup in Hin. destruct Hin as [k Hkd].
    destruct (Hall k d Hkd) as [_ [_ [_ Hf]]]. exact Hf.
Qed.

(** C4.  In every record of the response of [createForm], the list of
    invoice upload URLs is as long as the category's input list of invoice
    file names, and its i-th element is the upload URL the gateway answered
    to the request made for the i-th input name (the request sent after the
    category's video request and the requests for the names before it).
    When evidence is supplied there is one record per category. *)
Theorem createForm_invoice_urls_in_order
    (input : CreateFormInput) (w w' : World) (resp : CreateFormResponse) :
  createForm input w = (inr resp, w') ->
  (hasUploadedVideoOrInvoice (Object_entries input) = true ->
   length (s3 resp) = length (Object_entries input))
  /\ forall k r, s3 resp !! k = Some r ->
       exists rt props,
         Object_entries input !! k = Some (rt, props)
         /\ residue r = rt
         /\ length (invoicesCreateUrl r) = length (in_invoicesFileName props)
         /\ forall i name, in_invoicesFileName props !! i = Some name ->
              exists o,
                s3_respond
                  (logBefore input w k ++ videoRequests (rt, props)
                     ++ take i (invoiceRequests (rt, props)))
                  (mkS3Request name (ResidueType_value rt) None None) = inr o
                /\ invoicesCreateUrl r !! i = Some (createUrl o).
Proof.
  intros H. destruct (createForm_rows _ _ _ _ H) as [docs [_ [Hlen [Hcase Hk]]]].
  split.
  - intros Hev. rewrite Hev in Hcase. congruence.
  - intros k r Hr. destruct (Hk k) as [[rt props] [v [invs [He [Ha [Hup _]]]]]].
    { rewrite Hlen. eapply lookup_lt_Some; eauto. }
    rewrite Hr in Hup. inversion Hup; subst r. clear Hup.
    exists rt, props. cbn [residue invoicesCreateUrl uploadOf fst].
    destruct (answered_invoices _ _ _ _ Ha) as [Hl Hnth]. cbn [fst snd] in *.
    repeat split; try assumption.
    + now rewrite length_map.
    + intros i name Hi. destruct (Hnth i name Hi) as [o [Ho Hs]].
      exists o. split; [exact Hs|]. rewrite list_lookup_fmap, Ho. reflexivity.
Qed.

(** C5.  When evidence is supplied and [createForm] returns, the Document
    written for a category holds the file names the storage gateway
    assigned: for the video, the [fileName] of the gateway's answer to the
    video request (and none when no video name was supplied); for the
    invoices, position by position, the [fileName] of the gateway's answer
    to the request for that input name.  In particular, with exactly one
    invoice file name for PLASTIC, the PLASTIC record of the response has
    exactly one invoice upload URL and the PLASTIC Document exactly one
    invoice file name, the key the gateway assigned. *)
Theorem createForm_stores_storage_names
    (input : CreateFormInput) (w w' : World) (resp : CreateFormResponse) :
  hasUploadedVideoOrInvoice (Object_entries input) = true ->
  createForm input w = (inr resp, w') ->
  exists docs,
    documents w' = documents w ++ docs
    /\ (forall k rt props, Object_entries input !! k = Some (rt, props) ->
          exists d,
            docs !! k = Some d
            /\ residueType d = rt
            /\ match in_videoFileName props with
               | Some (String a s) =>
                   exists o,
                     s3_respond (logBefore input w k)
                                (mkS3Request (String a s) (ResidueType_value rt)
                                             None None) = inr o
                     /\ videoFileName d = Some (fileName o)
               | _ => videoFileName d = None
               end
            /\ length (invoicesFileName d) = length (in_invoicesFileName props)
            /\ forall i name, in_invoicesFileName props !! i = Some name ->
                 exists o,
                   s3_respond
                     (logBefore input w k ++ videoRequests (rt, props)
                        ++ take i (invoiceRequests (rt, props)))
                     (mkS3Request name (ResidueType_value rt) None None) = inr o
                   /\ invoicesFileName d !! i = Some (fileName o))
    /\ (forall name, in_invoicesFileName (in_PLASTIC input) = [name] ->
          exists o d r,
            s3_respond
              (logBefore input w 4 ++ videoRequests (PLASTIC, in_PLASTIC input))
              (mkS3Request name "PLASTIC" None None) = inr o
            /\ docs !! 4 = Some d
            /\ residueType d = PLASTIC
            /\ invoicesFileName d = [fileName o]
            /\ s3 resp !! 4 = Some r
            /\ residue r = PLASTIC
            /\ invoicesCreateUrl r = [createUrl o]).
Proof.
  intros Hev H. destruct (createForm_rows _ _ _ _ H) as [docs [Hd [Hlen [Hcase Hk]]]].
  rewrite Hev in Hcase. exists docs. split; [exact Hd|].
  assert (Hat : forall k rt props, Object_entries input !! k = Some (rt, props) ->
            exists video invoices,
              answered (logBefore input w k) (rt, props) video invoices
              /\ s3 resp !! k = Some (uploadOf (rt, props) video invoices)
              /\ docs !! k = Some (documentOf (form resp) (rt, props) video invoices
                                              (S (clock w) + k))).
  { intros k rt props He. destruct (Hk k) as [entry [v [invs [He' Hfacts]]]].
    - rewrite Hcase. eapply lookup_lt_Some; eauto.
    - rewrite He in He'. inversion He'; subst entry. exists v, invs. exact Hfacts. }
  split.
  - intros k rt props He. destruct (Hat k rt props He) as [v [invs [Ha [_ Hdoc]]]].
    eexists. split; [exact Hdoc|]. cbn [residueType videoFileName invoicesFileName
                                        documentOf fst snd].
    destruct (answered_invoices _ _ _ _ Ha) as [Hl Hnth]. cbn [fst snd] in *.
    pose proof (answered_video _ _ _ _ Ha) as Hv. cbn [fst snd] in Hv.
    repeat split.
    + destruct (in_videoFileName props) as [[|a s0]|]; try (now subst v).
      destruct Hv as [o [-> Ho]]. exists o. split; [exact Ho|reflexivity].
    + now rewrite length_map.
    + intros i name Hi. destruct (Hnth i name Hi) as [o [Ho Hs]].
      exists o. split; [exact Hs|]. rewrite list_lookup_fmap, Ho. reflexivity.
  - intros name Hone.
    destruct (Hat 4 PLASTIC (in_PLASTIC input) eq_refl) as [v [invs [Ha [Hup Hdoc]]]].
    destruct (answered_invoices _ _ _ _ Ha) as [Hl Hnth]. cbn [fst snd] in *.
    rewrite Hone in Hl, Hnth. destruct (Hnth 0 name eq_refl) as [o [Ho Hs]].
    destruct invs as [|o0 [|o1 invs]]; try discriminate.
    inversion Ho; subst o0. rewrite app_nil_r in Hs.
    exists o. do 2 eexists.
    split; [exact Hs|]. split; [exact Hdoc|]. split; [reflexivity|].
    split; [reflexivity|]. split; [exact Hup|]. split; reflexivity.
Qed.

(** C9, as amended.  [createForm] checks no sign: each Document it writes
    stores the amount submitted for its category as it came, so the stored
    amount is non-negative exactly when the submitted one is; the Form row
    it writes has its five quantities at the default, zero. *)
Theorem createForm_amounts_as_submitted
    (input : CreateFormInput) (w w' : World) (resp : CreateFormResponse) :
  createForm input w = (inr resp, w') ->
  (exists docs,
     documents w' = documents w ++ docs
     /\ forall k d, docs !! k = Some d ->
          exists rt props,
            Object_entries input !! k = Some (rt, props)
            /\ residueType d = rt
            /\ amount d = in_amount props)
  /\ plasticKgs (form resp) = 0%Qc
  /\ paperKgs (form resp) = 0%Qc
  /\ metalKgs (form resp) = 0%Qc
  /\ glassKgs (form resp) = 0%Qc
  /\ organicKgs (form resp) = 0%Qc.
Proof.
  intros H. split.
  - destruct (createForm_rows _ _ _ _ H) as [docs [Hd [_ [_ Hk]]]].
    exists docs. split; [exact Hd|]. intros k d Hkd.
    destruct (Hk k) as [[rt props] [v [invs [He [_ [_ Hdoc]]]]]].
    + eapply lookup_lt_Some; eauto.
    + rewrite Hkd in Hdoc. inversion Hdoc; subst d. exists rt, props. auto.
  - destruct (createForm_ok _ _ _ _ H) as [user [_ [_ [Hform _]]]].
    rewrite Hform. repeat split.
Qed.

(** *** [createForm] returns when its collaborators do *)

Section Available.

Hypothesis s3_available : forall log req, exists o, s3_respond log req = inr o.

Lemma createPreSignedObjectUrl_returns f r b k w :
  exists o w', createPreSignedObjectUrl f r b k w = (inr o, w').
Proof.
  unfold createPreSignedObjectUrl.
  destruct (s3_available (s3Log w) (mkS3Request f r b k)) as [o ->]. eauto.
Qed.

Lemma invoices_dispatch_returns names rt : forall w,
  exists objs w',
    Promise_all
      (map (fun invoiceFile => createPreSignedObjectUrl invoiceFile rt None None)
           names) w = (inr objs, w').
Proof.
  induction names as [|n names IH]; intros w; simpl.
  - unfold ret. eauto.
  - destruct (createPreSignedObjectUrl_returns n rt None None w) as [o [w1 ->]].
    destruct (IH w1) as [objs [w2 ->]]. eauto.
Qed.

Lemma createResidueDocument_returns form all entry w :
  exists out w', createResidueDocument form all entry w = (inr out, w').
Proof.
  unfold createResidueDocument, bind.
  assert (Hinv : forall w1, exists objs w2,
    (if negb (Nat.eqb (length (in_invoicesFileName (snd entry))) 0)
     then Promise_all
            (map (fun invoiceFile =>
                    createPreSignedObjectUrl invoiceFile
                      (ResidueType_value (fst entry)) None None)
                 (in_invoicesFileName (snd entry)))
     else ret []) w1 = (inr objs, w2)).
  { intros w1. destruct (negb _).
    - apply invoices_dispatch_returns.
    - unfold ret. eauto. }
  destruct (in_videoFileName (snd entry)) as [[|a s]|].
  - unfold ret at 1. destruct (Hinv w) as [objs [w2 ->]].
    unfold prisma_document_create, ret. eauto.
  - destruct (createPreSignedObjectUrl_returns
                (String a s) (ResidueType_value (fst entry)) None None w)
      as [o [w1 ->]].
    unfold ret at 1. destruct (Hinv w1) as [objs [w2 ->]].
    unfold prisma_document_create, ret. eauto.
  - unfold ret at 1. destruct (Hinv w) as [objs [w2 ->]].
    unfold prisma_document_create, ret. eauto.
Qed.

Lemma reduce_createResidueDocument_returns form entries : forall acc w,
  exists out w',
    reduce_async (createResidueDocument form) entries acc w = (inr out, w').
Proof.
  induction entries as [|e rest IH]; intros acc w; simpl.
  - unfold ret. eauto.
  - unfold bind.
    destruct (createResidueDocument_returns form acc e w) as [acc1 [w1 ->]].
    apply IH.
Qed.

(** With a storage gateway that answers every request, [createForm]
    returns a response as soon as the uploader is resolved and is not
    refused. *)
Lemma createForm_returns input w user :
  find (fun u => String.eqb (authUserId u) (in_authUserId input)) (users w)
    = Some user ->
  refused user input = false ->
  exists resp w', createForm input w = (inr resp, w').
Proof.
  intros Hu Hr. rewrite (createForm_allowed _ _ _ Hu Hr).
  unfold bind at 1, prisma_form_create.
  destruct (hasUploadedVideoOrInvoice _).
  - unfold bind.
    match goal with |- context [reduce_async ?f ?l ?a ?w0] =>
      destruct (reduce_createResidueDocument_returns
                  (mkForm (uuid (clock w)) 0%Qc 0%Qc 0%Qc 0%Qc 0%Qc (user_id user)
                          (in_walletAddress input) false None (clock w))
                  l a w0) as [out [w1 ->]] end.
    unfold ret. eauto.
  - unfold ret. eauto.
Qed.

End Available.

(** ** The authorization toggle *)

Lemma same_but_flag_refl (g : Form) : same_but_flag g g.
Proof. repeat split. Qed.

Lemma with_isFormAuthorizedByAdmin_frame (b : bool) (g : Form) :
  same_but_flag g (with_isFormAuthorizedByAdmin b g)
  /\ isFormAuthorizedByAdmin (with_isFormAuthorizedByAdmin b g) = b.
Proof. repeat split. Qed.

Lemma find_form_id (id : string) (l : list Form) (f : Form) :
  find (fun g => String.eqb (form_id g) id) l = Some f -> form_id f = id.
Proof.
  intros H. apply find_some in H. destruct H as [_ H]. now apply String.eqb_eq.
Qed.

Lemma find_map_update (id : string) (h : Form -> Form) (l : list Form) :
  (forall g, form_id (h g) = form_id g) ->
  find (fun g => String.eqb (form_id g) id)
       (map (fun g => if String.eqb (form_id g) id then h g else g) l)
  = option_map h (find (fun g => String.eqb (form_id g) id) l).
Proof.
  intros Hh. induction l as [|g l IH]; simpl; [reflexivity|].
  destruct (String.eqb (form_id g) id) eqn:E.
  - now rewrite Hh, E.
  - now rewrite E.
Qed.

Lemma authorizeForm_found (formId : string) (b : bool) (w : World) (f : Form) :
  find (fun g => String.eqb (form_id g) formId) (forms w) = Some f ->
  authorizeForm formId b w
  = (inr (with_isFormAuthorizedByAdmin b f),
     with_forms
       (map (fun g => if String.eqb (form_id g) formId
                      then with_isFormAuthorizedByAdmin b g else g) (forms w))
       w).
Proof.
  intros Hf. unfold authorizeForm, findByFormId, bind, prisma_form_findUnique.
  rewrite Hf. unfold ret, prisma_form_update.
  rewrite (find_form_id _ _ _ Hf), Hf. reflexivity.
Qed.

Lemma authorizeForm_not_found (formId : string) (b : bool) (w : World) :
  find (fun g => String.eqb (form_id g) formId) (forms w) = None ->
  authorizeForm formId b w
  = (inl (NotFoundException MessagesHelper.FORM_NOT_FOUND), w).
Proof.
  intros Hf. unfold authorizeForm, findByFormId, bind, prisma_form_findUnique.
  now rewrite Hf.
Qed.

(** C7.  [authorizeForm] fails with NotFound, leaving the world as it was,
    when no Form has the given identity.  Otherwise it returns the Form with
    the flag set to the given boolean; in the world it leaves, Documents,
    users, the gateway's log and the clock are untouched, every Form row is
    at its place with all columns but the flag unchanged, the rows with the
    given identity carry the given flag and the others are unchanged.
    Authorizing and then un-authorizing the same Form leaves the flag false
    and the Documents as they were. *)
Theorem authorizeForm_frame (formId : string) (b : bool) (w : World) :
  (find (fun g => String.eqb (form_id g) formId) (forms w) = None ->
   authorizeForm formId b w
   = (inl (NotFoundException MessagesHelper.FORM_NOT_FOUND), w))
  /\ (forall f,
        find (fun g => String.eqb (form_id g) formId) (forms w) = Some f ->
        exists w',
          authorizeForm formId b w = (inr (with_isFormAuthorizedByAdmin b f), w')
          /\ documents w' = documents w
          /\ users w' = users w
          /\ s3Log w' = s3Log w
          /\ clock w' = clock w
          /\ length (forms w') = length (forms w)
          /\ forall i g, forms w !! i = Some g ->
               exists g',
                 forms w' !! i = Some g'
                 /\ same_but_flag g g'
                 /\ (form_id g = formId -> isFormAuthorizedByAdmin g' = b)
                 /\ (form_id g <> formId -> g' = g))
  /\ (forall r1 w1,
        authorizeForm formId true w = (inr r1, w1) ->
        exists r2 w2,
          authorizeForm formId false w1 = (inr r2, w2)
          /\ isFormAuthorizedByAdmin r2 = false
          /\ documents w2 = documents w
          /\ forall g, In g (forms w2) -> form_id g = formId ->
               isFormAuthorizedByAdmin g = false).
Proof.
  split; [apply authorizeForm_not_found|]. split.
  - intros f Hf. eexists. split; [apply (authorizeForm_found _ _ _ _ Hf)|].
    cbn [documents users s3Log clock forms with_forms].
    repeat split.
    + apply length_map.
    + intros i g Hi. rewrite list_lookup_fmap, Hi. cbn [fmap option_fmap option_map].
      eexists. split; [reflexivity|].
      destruct (String.eqb (form_id g) formId) eqn:E.
      * apply String.eqb_eq in E. repeat split. congruence.
      * apply String.eqb_neq in E. repeat split; congruence.
  - intros r1 w1 H1.
    destruct (find (fun g => String.eqb (form_id g) formId) (forms w))
      as [f|] eqn:Hf.
    2:{ rewrite (authorizeForm_not_found _ _ _ Hf) in H1. discriminate. }
    rewrite (authorizeForm_found _ _ _ _ Hf) in H1. inversion H1; subst r1 w1.
    clear H1.
    assert (Hf1 : find (fun g => String.eqb (form_id g) formId)
                       (forms (with_forms
                          (map (fun g => if String.eqb (form_id g) formId
                                         then with_isFormAuthorizedByAdmin true g
                                         else g) (forms w)) w))
                  = Some (with_isFormAuthorizedByAdmin true f)).
    { cbn [forms with_forms]. rewrite find_map_update by reflexivity.
      now rewrite Hf. }
    do 2 eexists. split; [apply (authorizeForm_found _ _ _ _ Hf1)|].
    cbn [documents forms with_forms]. repeat split.
    intros g Hin Hid. apply in_map_iff in Hin. destruct Hin as [g1 [Hg _]].
    destruct (String.eqb (form_id g1) formId) eqn:E.
    + now subst g.
    + subst g. apply String.eqb_neq in E. contradiction.
Qed.

(** ** Aggregate reporting *)

Lemma fold_left_Qcplus (l : list Qc) : forall a : Qc,
  fold_left Qcplus l a = (a + fold_left Qcplus l 0%Qc)%Qc.
Proof.
  induction l as [|x l IH]; intros a; simpl.
  - ring.
  - rewrite (IH (a + x)%Qc), (IH (0 + x)%Qc). ring.
Qed.

Lemma fold_left_amounts (ds : list Document) :
  fold_left Qcplus (map amount ds) 0%Qc = sumOfAmounts ds.
Proof.
  induction ds as [|d ds IH]; simpl; [reflexivity|].
  rewrite fold_left_Qcplus, IH. ring.
Qed.

Lemma or_zero_sum (rows : list Document) :
  or_zero (match rows with
           | [] => None
           | _ :: _ => Some (fold_left Qcplus (map amount rows) 0%Qc)
           end) = sumOfAmounts rows.
Proof.
  destruct rows as [|d ds]; [reflexivity|].
  unfold or_zero. rewrite fold_left_amounts.
  destruct (Qc_eq_dec _ _) as [E|E]; [now rewrite E | reflexivity].
Qed.

Lemma matches_forms_of_profile (w : World) (p : ProfileType) (d : Document)
    (fs : list Form) :
  existsb (String.eqb (formId d)) (map form_id (List.filter (formOfProfile w p) fs))
  = existsb (fun f => String.eqb (form_id f) (formId d) && formOfProfile w p f) fs.
Proof.
  induction fs as [|f fs IH]; simpl; [reflexivity|].
  destruct (formOfProfile w p f); simpl.
  - rewrite IH, andb_true_r. now rewrite String.eqb_sym.
  - now rewrite IH, andb_false_r.
Qed.

(** C6.  [aggregateFormByUserProfile] returns, without failing and without
    changing the world, one entry for RECYCLER and one for WASTE_GENERATOR;
    the entry of a profile type carries the sum of the amounts of the
    Documents whose form belongs to a user of that profile type, and that is
    0 when no form belongs to such a user or no Document belongs to such a
    form. *)
Theorem aggregateFormByUserProfile_sums (w : World) :
  aggregateFormByUserProfile w
  = (inr [ mkAggregate RECYCLER (amountOfProfile w RECYCLER);
           mkAggregate WASTE_GENERATOR (amountOfProfile w WASTE_GENERATOR) ], w)
  /\ (forall p, List.filter (formOfProfile w p) (forms w) = [] ->
                amountOfProfile w p = 0%Qc)
  /\ (forall p, List.filter (documentOfProfile w p) (documents w) = [] ->
                amountOfProfile w p = 0%Qc).
Proof.
  assert (Hagg : forall p,
    let rows :=
      List.filter
        (fun d => existsb (String.eqb (formId d))
                    (map form_id (List.filter (formOfProfile w p) (forms w))))
        (documents w) in
    or_zero
      (match rows with
       | [] => None
       | _ :: _ => Some (fold_left Qcplus (map amount rows) 0%Qc)
       end) = amountOfProfile w p).
  { intros p. cbv zeta. rewrite or_zero_sum. unfold amountOfProfile. f_equal.
    apply filter_ext. intros d. apply matches_forms_of_profile. }
  split; [|split].
  - unfold aggregateFormByUserProfile, bind, Promise_all2, ret,
      prisma_form_findMany_byProfile, prisma_document_aggregate_sum_amount.
    cbn [fst snd]. fold (formOfProfile w RECYCLER) (formOfProfile w WASTE_GENERATOR).
    cbv zeta in Hagg. now rewrite !Hagg.
  - intros p Hnone. unfold amountOfProfile.
    replace (List.filter (documentOfProfile w p) (documents w)) with (@nil Document);
      [reflexivity|].
    symmetry. erewrite filter_ext.
    2:{ intros d. symmetry. apply matches_forms_of_profile. }
    rewrite Hnone. simpl. clear. induction (documents w); simpl; auto.
  - intros p Hnone. unfold amountOfProfile. now rewrite Hnone.
Qed.

(** ** The [URL] class: the stored URL has no query string *)

Lemma append_cons (c : ascii) (a b : string) :
  String c a +:+ b = String c (a +:+ b).
Proof. reflexivity. Qed.

Lemma append_assoc (a b c : string) : (a +:+ b) +:+ c = a +:+ (b +:+ c).
Proof.
  induction a as [|x a IH]; [reflexivity|].
  rewrite !append_cons. now rewrite IH.
Qed.

Lemma append_nil_r (a : string) : a +:+ "" = a.
Proof.
  induction a as [|x a IH]; [reflexivity|]. rewrite append_cons. now rewrite IH.
Qed.

Lemma append_length (a b : string) :
  String.length (a +:+ b) = String.length a + String.length b.
Proof.
  induction a as [|x a IH]; [reflexivity|].
  rewrite append_cons. simpl. now rewrite IH.
Qed.

Lemma span_until_app (stop : ascii -> bool) (s : string) : forall a b,
  span_until stop s = (a, b) -> s = a +:+ b.
Proof.
  induction s as [|c s IH]; simpl; intros a b H.
  - now inversion H.
  - destruct (stop c).
    + now inversion H.
    + destruct (span_until stop s) as [a' b'] eqn:E. inversion H; subst.
      rewrite append_cons. f_equal. now apply IH.
Qed.

Lemma span_until_rest (stop : ascii -> bool) (s : string) : forall a b,
  span_until stop s = (a, b) ->
  match b with
  | EmptyString => True
  | String c _ => stop c = true
  end.
Proof.
  induction s as [|c s IH]; simpl; intros a b H.
  - now inversion H.
  - destruct (stop c) eqn:Ec.
    + inversion H; subst. exact Ec.
    + destruct (span_until stop s) as [a' b'] eqn:E. inversion H; subst.
      eapply IH; eauto.
Qed.

Lemma strip_prefix_app (p : string) : forall s r,
  strip_prefix p s = Some r -> s = p +:+ r.
Proof.
  induction p as [|a p IH]; intros s r H; simpl in H.
  - now inversion H.
  - destruct s as [|b s]; [discriminate|].
    destruct (Ascii.eqb a b) eqn:E; [|discriminate].
    apply Ascii.eqb_eq in E. subst b. rewrite append_cons. f_equal. now apply IH.
Qed.

Lemma has_question_app (a b : string) :
  has_question (a +:+ b) = has_question a || has_question b.
Proof.
  induction a as [|c a IH]; [reflexivity|].
  rewrite append_cons. simpl. now rewrite IH, orb_assoc.
Qed.

Lemma span_until_head (stop : ascii -> bool) (s : string) : forall c a b,
  span_until stop s = (String c a, b) -> stop c = false.
Proof.
  destruct s as [|c0 s]; simpl; intros c a b H; [discriminate|].
  destruct (stop c0) eqn:E; [discriminate|].
  destruct (span_until stop s) as [a' b']. now inversion H; subst.
Qed.

(** The URL class of the examples finds a query only behind a question
    mark. *)
Lemma URL_of_serialised_question (s : string) (u : URL) :
  URL_of_serialised s = Some u -> search u <> "" -> has_question s = true.
Proof.
  unfold URL_of_serialised.
  destruct (span_until is_colon s) as [scheme r0] eqn:E0.
  destruct scheme as [|c0 scheme]; [discriminate|].
  destruct (strip_prefix "://" r0) as [r1|] eqn:E1; [|discriminate].
  destruct (span_until is_authority_end r1) as [authority r2] eqn:E2.
  destruct authority as [|c1 authority]; [discriminate|].
  destruct (span_until is_path_end r2) as [path r3] eqn:E3.
  destruct (span_until is_hash r3) as [query fragment] eqn:E4.
  intros H; inversion H; subst u; clear H. cbn [search]. intros Hq.
  assert (Hquery : exists c q, query = String c q).
  { destruct query as [|c q]; [congruence|eauto]. }
  destruct Hquery as [c [q ->]]. clear Hq.
  pose proof (span_until_head _ _ _ _ _ E4) as Hnot.
  pose proof (span_until_rest _ _ _ _ E3) as Hr3.
  apply span_until_app in E0, E2, E3, E4. apply strip_prefix_app in E1.
  subst r3. rewrite append_cons in Hr3.
  assert (Hc : Ascii.eqb c "?" = true).
  { unfold is_path_end, is_hash in *. rewrite Hnot, orb_false_r in Hr3.
    exact Hr3. }
  assert (Htail : has_question (String c q +:+ fragment) = true).
  { rewrite append_cons. cbn [has_question]. now rewrite Hc. }
  rewrite E0, E1, E2, E3.
  rewrite (has_question_app (String c0 scheme)), (has_question_app "://"),
    (has_question_app (String c1 authority)), (has_question_app path), Htail.
  now rewrite !orb_true_r.
Qed.

(** ** Metadata publication *)

(** What a call of [createFormMetadata] that returns has done. *)
Lemma createFormMetadata_ok fid w r w' :
  createFormMetadata fid w = (inr r, w') ->
  exists form user obj url,
    find (fun g => String.eqb (form_id g) fid) (forms w) = Some form
    /\ find (fun u => String.eqb (user_id u) (userId form)) (users w) = Some user
    /\ s3_respond (s3Log w) (metadataRequest fid) = inr obj
    /\ new_URL (createUrl obj) = Some url
    /\ r = mkFormMetadataResponse
             (createUrl obj)
             (JSON_stringify
                (mkJsonMetadata
                   (residueAttributes form
                      (List.filter (fun d => String.eqb (formId d) fid)
                                   (documents w)))
                   "RECY Report"
                   (origin url +:+ "/images/" +:+ fid +:+ ".png")
                   (email user)))
    /\ w' = mkWorld
              (map (fun g => if String.eqb (form_id g) fid
                             then with_formMetadataUrl
                                    (Some (origin url +:+ pathname url)) g
                             else g) (forms w))
              (documents w) (users w)
              (s3Log w ++ [metadataRequest fid]) (clock w).
Proof.
  unfold createFormMetadata, findByFormId, bind at 1 2,
    prisma_form_findUnique.
  destruct (find (fun g => String.eqb (form_id g) fid) (forms w))
    as [form|] eqn:Hf; [|discriminate].
  pose proof (find_form_id _ _ _ Hf) as Hid.
  unfold ret at 1, bind at 1, Promise_all2, findUserByUserId, listDocumentsFromForm.
  destruct (find (fun u => String.eqb (user_id u) (userId form)) (users w))
    as [user|] eqn:Hu; [|discriminate].
  cbn [fst snd]. unfold bind at 1, createOnPublicObject, bind at 1,
    createPreSignedObjectUrl.
  rewrite Hid. fold (metadataRequest fid).
  destruct (s3_respond (s3Log w) (metadataRequest fid)) as [msg|obj] eqn:Ho;
    [discriminate|].
  unfold ret at 1.
  destruct (new_URL (createUrl obj)) as [url|] eqn:Hurl; [|discriminate].
  unfold bind, prisma_form_update. cbn [forms with_s3Log]. rewrite Hf.
  unfold ret. intros H; inversion H; subst r w'. clear H.
  exists form, user, obj, url. repeat split; assumption.
Qed.

Lemma reduce_push {A B} (g : B -> A) (l : list B) : forall init : list A,
  fold_left (fun all x => all ++ [g x]) l init = init ++ map g l.
Proof.
  induction l as [|x l IH]; intros init; simpl.
  - now rewrite app_nil_r.
  - rewrite IH, <- app_assoc. reflexivity.
Qed.

Lemma residueAttributes_unfold form docs :
  residueAttributes form docs
  = mkAttribute "Originating wallet" (or_else (walletAddress form) "0x0")
    :: mkAttribute "Audit"
                   (if isFormAuthorizedByAdmin form then "Verified"
                    else "Not Verified")
    :: map (fun d => mkAttribute (getResidueTitle (residueType d) +:+ " kgs")
                                 (String_of_number (amount d)))
           docs.
Proof.
  unfold residueAttributes.
  rewrite (reduce_push
             (fun d => mkAttribute (getResidueTitle (residueType d) +:+ " kgs")
                                   (String_of_number (amount d)))).
  reflexivity.
Qed.


Section URLStandard.

(** What the URL standard says of the runtime's class, as far as the
    service relies on it: a question mark ends the path, so neither the
    origin nor the path of a URL holds one; and a URL has a query only when
    the string it was built from holds a question mark. *)
Hypothesis URL_path_has_no_question : forall s u,
  new_URL s = Some u -> has_question (origin u +:+ pathname u) = false.

Hypothesis URL_query_follows_question : forall s u,
  new_URL s = Some u -> search u <> "" -> has_question s = true.

(** C10.  The metadata URL that [createFormMetadata] stores on the Form is
    the origin followed by the path of the URL object built from the upload
    URL the storage gateway answered, while the response carries that
    upload URL as it came; so when the gateway's URL carries a query (or a
    question mark at all), the stored URL is not the returned one. *)
Theorem createFormMetadata_stored_url
    (fid : string) (w w' : World) (r : FormMetadataResponse) :
  createFormMetadata fid w = (inr r, w') ->
  exists obj url,
    s3_respond (s3Log w) (metadataRequest fid) = inr obj
    /\ new_URL (createUrl obj) = Some url
    /\ createMetadataUrl r = createUrl obj
    /\ (exists g, In g (forms w') /\ form_id g = fid)
    /\ (forall g, In g (forms w') -> form_id g = fid ->
          formMetadataUrl g = Some (origin url +:+ pathname url))
    /\ (search url <> "" ->
        forall g, In g (forms w') -> form_id g = fid ->
          formMetadataUrl g <> Some (createMetadataUrl r))
    /\ (has_question (createMetadataUrl r) = true ->
        forall g, In g (forms w') -> form_id g = fid ->
          formMetadataUrl g <> Some (createMetadataUrl r)).
Proof.
  intros H. destruct (createFormMetadata_ok _ _ _ _ H)
    as [form [user [obj [url [Hf [_ [Ho [Hurl [Hr Hw]]]]]]]]].
  subst r w'. exists obj, url. cbn [createMetadataUrl forms].
  assert (Hstored : forall g,
    In g (map (fun g => if String.eqb (form_id g) fid
                        then with_formMetadataUrl
                               (Some (origin url +:+ pathname url)) g
                        else g) (forms w)) ->
    form_id g = fid ->
    formMetadataUrl g = Some (origin url +:+ pathname url)).
  { intros g Hin Hid. apply in_map_iff in Hin. destruct Hin as [g0 [Hg _]].
    destruct (String.eqb (form_id g0) fid) eqn:E.
    - now subst g.
    - subst g. apply String.eqb_neq in E. contradiction. }
  assert (Hdiffer : has_question (createUrl obj) = true ->
    forall g,
      In g (map (fun g => if String.eqb (form_id g) fid
                          then with_formMetadataUrl
                                 (Some (origin url +:+ pathname url)) g
                          else g) (forms w)) ->
      form_id g = fid ->
      formMetadataUrl g <> Some (createUrl obj)).
  { intros Hq g Hin Hid Heq. rewrite (Hstored g Hin Hid) in Heq.
    inversion Heq as [Heq'].
    pose proof (URL_path_has_no_question _ _ Hurl) as Hno.
    rewrite Heq', Hq in Hno. discriminate. }
  split; [exact Ho|]. split; [exact Hurl|]. split; [reflexivity|].
  split; [|split; [exact Hstored|split; [|exact Hdiffer]]].
  - exists (with_formMetadataUrl (Some (origin url +:+ pathname url)) form).
    split; [|exact (find_form_id _ _ _ Hf)].
    apply in_map_iff. exists form. split.
    + now rewrite (find_form_id _ _ _ Hf), String.eqb_refl.
    + apply find_some in Hf. tauto.
  - intros Hq. apply Hdiffer. exact (URL_query_follows_question _ _ Hurl Hq).
Qed.

End URLStandard.

(** ** Further properties: lookups, images and the authorization flag *)

(** X1.  [findByFormId] never changes the world; it returns a Form exactly
    when the table has a row with the given identity, the Form it returns
    is a row of the table with that identity, and otherwise it fails with
    NotFound and the message of [FORM_NOT_FOUND]. *)
Theorem findByFormId_found_iff (id : string) (w : World) :
  snd (findByFormId id w) = w
  /\ ((exists f, fst (findByFormId id w) = inr f)
      <-> (exists g, In g (forms w) /\ form_id g = id))
  /\ (forall f, fst (findByFormId id w) = inr f ->
        form_id f = id /\ In f (forms w))
  /\ (forall e, fst (findByFormId id w) = inl e ->
        e = NotFoundException "Form not found").
Proof.
  unfold findByFormId, bind, prisma_form_findUnique.
  destruct (find (fun g => String.eqb (form_id g) id) (forms w)) as [f|] eqn:Hf;
    cbn [fst snd ret throw].
  - split; [reflexivity|]. split; [|split].
    + split; [|eauto]. intros _. exists f. split.
      * apply find_some in Hf. tauto.
      * exact (find_form_id _ _ _ Hf).
    + intros f' H. inversion H; subst f'. split.
      * exact (find_form_id _ _ _ Hf).
      * apply find_some in Hf. tauto.
    + intros e H. discriminate.
  - split; [reflexivity|]. split; [|split].
    + split; [intros [f H]; discriminate|].
      intros [g [Hin Hid]]. exfalso.
      pose proof (find_none _ _ Hf g Hin) as Hn. cbn beta in Hn.
      apply String.eqb_neq in Hn. contradiction.
    + intros f H. discriminate.
    + intros e H. inversion H. reflexivity.
Qed.

Lemma submitFormImage_found (fid : string) (w : World) (f : Form) :
  find (fun g => String.eqb (form_id g) fid) (forms w) = Some f ->
  submitFormImage fid w
  = (match s3_respond (s3Log w) (imageRequest fid) with
     | inl msg => inl (StorageFailure msg)
     | inr o => inr (createUrl o)
     end,
     with_s3Log (s3Log w ++ [imageRequest fid]) w).
Proof.
  intros Hf. unfold submitFormImage, findByFormId, bind at 1 2,
    prisma_form_findUnique.
  rewrite Hf. unfold ret at 1. rewrite (find_form_id _ _ _ Hf).
  unfold createOnPublicObject, bind, createPreSignedObjectUrl.
  fold (imageRequest fid).
  now destruct (s3_respond (s3Log w) (imageRequest fid)).
Qed.

(** X2.  [submitFormImage] writes to no table.  Without a Form of the given
    identity it fails with NotFound and sends nothing to the gateway.  With
    one, it sends exactly one request -- for the object named after the
    given identity with the extension png, under the base path images of
    the bucket detrash-public, with an empty category -- and returns the
    upload URL of the gateway's answer, or fails as the gateway did. *)
Theorem submitFormImage_one_request (fid : string) (w : World) :
  forms (snd (submitFormImage fid w)) = forms w
  /\ documents (snd (submitFormImage fid w)) = documents w
  /\ users (snd (submitFormImage fid w)) = users w
  /\ ((forall g, In g (forms w) -> form_id g <> fid) ->
      submitFormImage fid w = (inl (NotFoundException "Form not found"), w))
  /\ ((exists g, In g (forms w) /\ form_id g = fid) ->
      s3Log (snd (submitFormImage fid w)) = s3Log w ++ [imageRequest fid]
      /\ fst (submitFormImage fid w)
         = match s3_respond (s3Log w) (imageRequest fid) with
           | inl msg => inl (StorageFailure msg)
           | inr o => inr (createUrl o)
           end).
Proof.
  destruct (find (fun g => String.eqb (form_id g) fid) (forms w)) as [f|] eqn:Hf.
  - rewrite (submitFormImage_found _ _ _ Hf). cbn [fst snd forms documents users
                                                   s3Log with_s3Log].
    do 3 (split; [reflexivity|]). split; [|split; reflexivity].
    intros Hnone. exfalso.
    apply find_some in Hf. destruct Hf as [Hin Hid].
    apply String.eqb_eq in Hid. exact (Hnone f Hin Hid).
  - assert (Hrun : submitFormImage fid w
                   = (inl (NotFoundException "Form not found"), w)).
    { unfold submitFormImage, findByFormId, bind, prisma_form_findUnique.
      now rewrite Hf. }
    rewrite Hrun. cbn [fst snd].
    do 3 (split; [reflexivity|]). split; [reflexivity|].
    intros [g [Hin Hid]]. exfalso.
    pose proof (find_none _ _ Hf g Hin) as Hn. cbn beta in Hn.
    apply String.eqb_neq in Hn. contradiction.
Qed.

Lemma storeAuthorization_twice (fid : string) (b1 b2 : bool) (fs : list Form) :
  storeAuthorization fid b2 (storeAuthorization fid b1 fs)
  = storeAuthorization fid b2 fs.
Proof.
  unfold storeAuthorization. rewrite map_map. apply map_ext. intros g.
  destruct (String.eqb (form_id g) fid) eqn:E.
  - cbn [form_id with_isFormAuthorizedByAdmin]. now rewrite E.
  - now rewrite E.
Qed.

(** X3.  The last authorization wins: once [authorizeForm] has returned
    for a Form, a second call for the same Form gives the result and the
    world that this second call alone would have given; in particular a
    call is idempotent. *)
Theorem authorizeForm_last_write_wins
    (formId : string) (b1 b2 : bool) (w w1 : World) (f1 : Form) :
  authorizeForm formId b1 w = (inr f1, w1) ->
  authorizeForm formId b2 w1 = authorizeForm formId b2 w
  /\ authorizeForm formId b1 w1 = (inr f1, w1).
Proof.
  intros H1.
  destruct (find (fun g => String.eqb (form_id g) formId) (forms w))
    as [f|] eqn:Hf.
  2:{ rewrite (authorizeForm_not_found _ _ _ Hf) in H1. discriminate. }
  rewrite (authorizeForm_found _ _ _ _ Hf) in H1.
  fold (storeAuthorization formId b1 (forms w)) in H1.
  inversion H1; subst f1 w1. clear H1.
  assert (Hf1 : find (fun g => String.eqb (form_id g) formId)
                     (forms (with_forms (storeAuthorization formId b1 (forms w)) w))
                = Some (with_isFormAuthorizedByAdmin b1 f)).
  { cbn [forms with_forms]. unfold storeAuthorization.
    rewrite find_map_update by reflexivity. now rewrite Hf. }
  assert (Hany : forall b,
    authorizeForm formId b
      (with_forms (storeAuthorization formId b1 (forms w)) w)
    = (inr (with_isFormAuthorizedByAdmin b f),
       with_forms (storeAuthorization formId b (forms w)) w)).
  { intros b. rewrite (authorizeForm_found _ _ _ _ Hf1).
    cbn [forms with_forms].
    fold (storeAuthorization formId b (storeAuthorization formId b1 (forms w))).
    rewrite storeAuthorization_twice. reflexivity. }
  split.
  - rewrite Hany, (authorizeForm_found _ _ _ _ Hf). reflexivity.
  - apply Hany.
Qed.

(** X4.  Reading back what [authorizeForm] wrote: after a call that
    returned, [findByFormId] for the same identity returns the very Form
    the call returned, which has that identity and carries the given
    flag. *)
Theorem authorizeForm_then_findByFormId
    (formId : string) (b : bool) (w w1 : World) (f1 : Form) :
  authorizeForm formId b w = (inr f1, w1) ->
  findByFormId formId w1 = (inr f1, w1)
  /\ form_id f1 = formId
  /\ isFormAuthorizedByAdmin f1 = b.
Proof.
  intros H1.
  destruct (find (fun g => String.eqb (form_id g) formId) (forms w))
    as [f|] eqn:Hf.
  2:{ rewrite (authorizeForm_not_found _ _ _ Hf) in H1. discriminate. }
  rewrite (authorizeForm_found _ _ _ _ Hf) in H1.
  inversion H1; subst f1 w1. clear H1. split; [|split].
  - unfold findByFormId, bind, prisma_form_findUnique. cbn [forms with_forms].
    rewrite find_map_update by reflexivity. now rewrite Hf.
  - exact (find_form_id _ _ _ Hf).
  - reflexivity.
Qed.

(** ** Further properties: metadata publication *)

(** X5.  A call of [createFormMetadata] that fails on a lookup, on the
    gateway or on the URL has stored nothing.  When it fails with NotFound,
    the world is as it was and nothing was sent to the gateway: no Form has
    the given identity, or the owner of the Form is unknown.  When it fails
    as the gateway did, or with a TypeError because the gateway's upload URL
    is not a URL, the one request has been sent and nothing else has
    changed: no metadata URL is stored. *)
Theorem createFormMetadata_failure_writes_nothing
    (fid : string) (w w' : World) (e : Exception) :
  createFormMetadata fid w = (inl e, w') ->
  (forall msg, e = NotFoundException msg ->
     w' = w
     /\ ((msg = "Form not found"
          /\ forall g, In g (forms w) -> form_id g <> fid)
         \/ msg = "User not found"))
  /\ (forall msg, e = StorageFailure msg ->
       s3_respond (s3Log w) (metadataRequest fid) = inl msg
       /\ w' = with_s3Log (s3Log w ++ [metadataRequest fid]) w)
  /\ (forall msg, e = TypeError msg ->
       w' = with_s3Log (s3Log w ++ [metadataRequest fid]) w
       /\ exists o, s3_respond (s3Log w) (metadataRequest fid) = inr o
                    /\ new_URL (createUrl o) = None).
Proof.
  unfold createFormMetadata, findByFormId, bind at 1 2, prisma_form_findUnique.
  destruct (find (fun g => String.eqb (form_id g) fid) (forms w))
    as [f|] eqn:Hf.
  2:{ unfold throw. intros H; inversion H; subst e w'.
      split; [|split]; intros msg Hm; try discriminate Hm.
      inversion Hm; subst msg. split; [reflexivity|]. left.
      split; [reflexivity|]. intros g Hin Hid.
      pose proof (find_none _ _ Hf g Hin) as Hn. cbn beta in Hn.
      apply String.eqb_neq in Hn. contradiction. }
  pose proof (find_form_id _ _ _ Hf) as Hid.
  unfold ret at 1, bind at 1, Promise_all2, findUserByUserId, listDocumentsFromForm.
  destruct (find (fun u => String.eqb (user_id u) (userId f)) (users w))
    as [user|] eqn:Hu.
  2:{ intros H; inversion H; subst e w'.
      split; [|split]; intros msg Hm; try discriminate Hm.
      inversion Hm; subst msg. split; [reflexivity|]. now right. }
  cbn [fst snd]. unfold bind at 1, createOnPublicObject, bind at 1,
    createPreSignedObjectUrl.
  rewrite Hid. fold (metadataRequest fid).
  destruct (s3_respond (s3Log w) (metadataRequest fid)) as [msg0|obj] eqn:Ho.
  { intros H; inversion H; subst e w'.
    split; [|split]; intros msg Hm; try discriminate Hm.
    inversion Hm; subst msg. split; reflexivity. }
  unfold ret at 1.
  destruct (new_URL (createUrl obj)) as [url|] eqn:Hurl.
  { unfold bind, prisma_form_update. cbn [forms with_s3Log]. rewrite Hf.
    unfold ret. discriminate. }
  unfold throw. intros H; inversion H; subst e w'.
  split; [|split]; intros msg Hm; try discriminate Hm.
  split; [reflexivity|]. exists obj. now split.
Qed.

(** X6.  A call of [createFormMetadata] that returns has sent exactly one
    request to the gateway and changed nothing but the metadata URL of the
    Form rows with the given identity: Documents, users and the clock are as
    before, every Form row is at its place with every other column
    unchanged (the authorization flag included), and the rows of other
    Forms are untouched. *)
Theorem createFormMetadata_frame
    (fid : string) (w w' : World) (r : FormMetadataResponse) :
  createFormMetadata fid w = (inr r, w') ->
  documents w' = documents w
  /\ users w' = users w
  /\ clock w' = clock w
  /\ s3Log w' = s3Log w ++ [metadataRequest fid]
  /\ length (forms w') = length (forms w)
  /\ forall i g, forms w !! i = Some g ->
       exists g',
         forms w' !! i = Some g'
         /\ same_but_metadataUrl g g'
         /\ (form_id g <> fid -> g' = g).
Proof.
  intros H. destruct (createFormMetadata_ok _ _ _ _ H)
    as [form [user [obj [url [_ [_ [_ [_ [_ Hw]]]]]]]]].
  subst w'. cbn [forms documents users clock s3Log].
  repeat split.
  - apply length_map.
  - intros i g Hi. rewrite list_lookup_fmap, Hi.
    cbn [fmap option_fmap option_map].
    eexists. split; [reflexivity|].
    destruct (String.eqb (form_id g) fid) eqn:E.
    + split; [repeat split|]. apply String.eqb_eq in E. congruence.
    + split; [repeat split|]. reflexivity.
Qed.

Lemma storeMetadataUrl_twice (fid u1 u2 : string) (fs : list Form) :
  storeMetadataUrl fid u2 (storeMetadataUrl fid u1 fs) = storeMetadataUrl fid u2 fs.
Proof.
  unfold storeMetadataUrl. rewrite map_map. apply map_ext. intros g.
  destruct (String.eqb (form_id g) fid) eqn:E.
  - cbn [form_id with_formMetadataUrl]. now rewrite E.
  - now rewrite E.
Qed.

(** X7.  Publishing the metadata of a Form twice overwrites: after two
    calls of [createFormMetadata] that returned, the forms table is the one
    in which the Form carries the origin and path of the second upload URL
    (what the second call alone would have stored), the Documents are as
    before, and the gateway has received the same request twice. *)
Theorem createFormMetadata_twice
    (fid : string) (w w1 w2 : World) (r1 r2 : FormMetadataResponse) :
  createFormMetadata fid w = (inr r1, w1) ->
  createFormMetadata fid w1 = (inr r2, w2) ->
  exists url2,
    new_URL (createMetadataUrl r2) = Some url2
    /\ forms w2 = storeMetadataUrl fid (origin url2 +:+ pathname url2) (forms w)
    /\ documents w2 = documents w
    /\ s3Log w2 = s3Log w ++ [metadataRequest fid; metadataRequest fid].
Proof.
  intros H1 H2.
  destruct (createFormMetadata_ok _ _ _ _ H1)
    as [form1 [user1 [obj1 [url1 [_ [_ [_ [_ [_ Hw1]]]]]]]]].
  destruct (createFormMetadata_ok _ _ _ _ H2)
    as [form2 [user2 [obj2 [url2 [_ [_ [_ [Hurl2 [Hr2 Hw2]]]]]]]]].
  subst r2 w2 w1. cbn [createMetadataUrl forms documents s3Log].
  exists url2. split; [exact Hurl2|]. split; [|split].
  - fold (storeMetadataUrl fid (origin url1 +:+ pathname url1) (forms w)).
    fold (storeMetadataUrl fid (origin url2 +:+ pathname url2)
            (storeMetadataUrl fid (origin url1 +:+ pathname url1) (forms w))).
    apply storeMetadataUrl_twice.
  - reflexivity.
  - now rewrite <- app_assoc.
Qed.

(** X8.  The audit status published for a Form follows the last
    authorization: when [authorizeForm] has returned for a Form and
    [createFormMetadata] then returns for it, the second attribute of the
    published metadata is Audit with the value Verified if the flag given
    was true and Not Verified if it was false. *)
Theorem authorizeForm_then_createFormMetadata
    (fid : string) (b : bool) (w w1 w2 : World) (f1 : Form)
    (r : FormMetadataResponse) :
  authorizeForm fid b w = (inr f1, w1) ->
  createFormMetadata fid w1 = (inr r, w2) ->
  exists metadata,
    body r = JSON_stringify metadata
    /\ attributes metadata !! 1
       = Some (mkAttribute "Audit" (if b then "Verified" else "Not Verified")).
Proof.
  intros H1 H2.
  destruct (find (fun g => String.eqb (form_id g) fid) (forms w))
    as [f|] eqn:Hf.
  2:{ rewrite (authorizeForm_not_found _ _ _ Hf) in H1. discriminate. }
  rewrite (authorizeForm_found _ _ _ _ Hf) in H1.
  inversion H1; subst f1 w1. clear H1.
  destruct (createFormMetadata_ok _ _ _ _ H2)
    as [form [user [obj [url [Hform [_ [_ [_ [Hr _]]]]]]]]].
  cbn [forms with_forms] in Hform.
  rewrite find_map_update in Hform by reflexivity. rewrite Hf in Hform.
  inversion Hform; subst form. clear Hform.
  subst r. eexists. split; [reflexivity|].
  cbn [attributes]. rewrite residueAttributes_unfold. reflexivity.
Qed.

(** ** Further properties: failures and gateway traffic of [createForm] *)


Lemma invoices_dispatch_world names rt w res w' :
  Promise_all
    (map (fun invoiceFile => createPreSignedObjectUrl invoiceFile rt None None)
         names) w = (res, w') ->
  w' = with_s3Log
         (s3Log w ++ map (fun invoiceFile => mkS3Request invoiceFile rt None None)
                         names) w.
Proof. intros H. now destruct (invoices_dispatch _ _ _ _ _ H). Qed.

(** A step of the dispatch that fails has written no row; it has sent the
    video request alone, or all the requests of the category. *)
Lemma createResidueDocument_fails form all entry w e w' :
  createResidueDocument form all entry w = (inl e, w') ->
  forms w' = forms w
  /\ documents w' = documents w
  /\ users w' = users w
  /\ clock w' = clock w
  /\ (s3Log w' = s3Log w ++ videoRequests entry
      \/ s3Log w' = s3Log w ++ entryRequests entry).
Proof.
  destruct entry as [rt props].
  unfold createResidueDocument, bind, entryRequests, videoRequests, invoiceRequests.
  cbn [fst snd].
  assert (Hinv : forall w1 e1 w2,
    (if negb (Nat.eqb (length (in_invoicesFileName props)) 0)
     then Promise_all
            (map (fun invoiceFile =>
                    createPreSignedObjectUrl invoiceFile (ResidueType_value rt)
                                             None None)
                 (in_invoicesFileName props))
     else ret []) w1 = (inl e1, w2) ->
    w2 = with_s3Log
           (s3Log w1 ++ map (fun invoiceFile =>
                               mkS3Request invoiceFile (ResidueType_value rt)
                                           None None)
                            (in_invoicesFileName props)) w1).
  { intros w1 e1 w2. destruct (negb _).
    - apply invoices_dispatch_world.
    - discriminate. }
  destruct (in_videoFileName props) as [[|a s]|].
  - unfold ret at 1.
    match goal with |- context [(if ?c then ?x else ?y) w] =>
      destruct ((if c then x else y) w) as [[e1|objs] w1] eqn:E end;
      [|discriminate].
    intros H; inversion H; subst e1 w1. rewrite (Hinv _ _ _ E).
    cbn [forms documents users clock s3Log with_s3Log]. repeat split.
    now right.
  - unfold createPreSignedObjectUrl at 1.
    set (req := mkS3Request (String a s) (ResidueType_value rt) None None).
    destruct (s3_respond (s3Log w) req) as [msg|o] eqn:Eo.
    + intros H; inversion H; subst e w'.
      cbn [forms documents users clock s3Log with_s3Log]. repeat split. now left.
    + unfold ret at 1. cbn [fst snd].
      match goal with |- context [(if ?c then ?x else ?y) ?w0] =>
        destruct ((if c then x else y) w0) as [[e1|objs] w1] eqn:E end;
        [|discriminate].
      intros H; inversion H; subst e1 w1. rewrite (Hinv _ _ _ E).
      cbn [forms documents users clock s3Log with_s3Log]. repeat split.
      right. now rewrite <- app_assoc.
  - unfold ret at 1.
    match goal with |- context [(if ?c then ?x else ?y) w] =>
      destruct ((if c then x else y) w) as [[e1|objs] w1] eqn:E end;
      [|discriminate].
    intros H; inversion H; subst e1 w1. rewrite (Hinv _ _ _ E).
    cbn [forms documents users clock s3Log with_s3Log]. repeat split.
    now right.
Qed.

(** A dispatch that fails has written the Documents of the categories before
    the failing one, and nothing else. *)
Lemma reduce_createResidueDocument_fails form entries : forall acc w e w',
  reduce_async (createResidueDocument form) entries acc w = (inl e, w') ->
  exists docs,
    documents w' = documents w ++ docs
    /\ length docs < length entries
    /\ map residueType docs = map fst (take (length docs) entries)
    /\ Forall (fun d => formId d = form_id form) docs
    /\ forms w' = forms w
    /\ users w' = users w.
Proof.
  induction entries as [|e0 rest IH]; intros acc w e w' H.
  - simpl in H. discriminate.
  - simpl in H. unfold bind in H.
    destruct (createResidueDocument form acc e0 w) as [[e1|acc1] w1] eqn:E0.
    + inversion H; subst e1 w1.
      destruct (createResidueDocument_fails _ _ _ _ _ _ E0)
        as [Hf [Hd [Hu _]]].
      exists []. rewrite app_nil_r. cbn [length take map].
      repeat split; try assumption; [lia | constructor].
    + apply createResidueDocument_ok in E0.
      destruct E0 as [video [invoices [_ [_ Hw1]]]].
      destruct (IH _ _ _ _ H) as [docs [Hd [Hlen [Hrt [Hall [Hf Hu]]]]]].
      subst w1. cbn [documents forms users] in *.
      exists (documentOf form e0 video invoices (clock w) :: docs).
      cbn [length take map]. repeat split; try assumption.
      * rewrite Hd, <- app_assoc. reflexivity.
      * lia.
      * cbn [residueType documentOf]. now rewrite Hrt.
      * constructor; [reflexivity | exact Hall].
Qed.

(** X10.  Nothing is rolled back: when [createForm] fails on a gateway
    call, the new Form row is in the table, and so are the Documents of the
    categories that precede the failing one -- fewer than five, in category
    order, all owned by the new Form. *)
Theorem createForm_failure_keeps_partial_writes
    (input : CreateFormInput) (w w' : World) (msg : string) :
  createForm input w = (inl (StorageFailure msg), w') ->
  exists f docs,
    forms w' = forms w ++ [f]
    /\ form_id f = uuid (clock w)
    /\ documents w' = documents w ++ docs
    /\ length docs < 5
    /\ map residueType docs
       = take (length docs) [GLASS; METAL; ORGANIC; PAPER; PLASTIC]
    /\ Forall (fun d => formId d = form_id f) docs.
Proof.
  destruct (find (fun u => String.eqb (authUserId u) (in_authUserId input))
                 (users w)) as [user|] eqn:Hu.
  2:{ rewrite (createForm_unresolved _ _ Hu). discriminate. }
  destruct (refused user input) eqn:Hr.
  1:{ rewrite (createForm_refused _ _ _ Hu Hr). discriminate. }
  rewrite (createForm_allowed _ _ _ Hu Hr).
  unfold bind at 1, prisma_form_create.
  set (f := mkForm _ _ _ _ _ _ _ _ _ _ _).
  destruct (hasUploadedVideoOrInvoice (Object_entries input)); [|discriminate].
  unfold bind, ret.
  destruct (reduce_async (createResidueDocument f) (Object_entries input) []
                         (tick (with_forms (forms w ++ [f]) w)))
    as [[e|s3Data] w1] eqn:E; [|discriminate].
  intros H; inversion H; subst e w1. clear H.
  destruct (reduce_createResidueDocument_fails _ _ _ _ _ _ E)
    as [docs [Hd [Hlen [Hrt [Hall [Hf _]]]]]].
  cbn [documents forms tick with_forms] in *.
  change (length (Object_entries input)) with 5 in Hlen.
  exists f, docs. repeat split; try assumption.
  rewrite Hrt. unfold Object_entries.
  destruct docs as [|? [|? [|? [|? [|? ?]]]]]; cbn [length] in *;
    try reflexivity; lia.
Qed.

Lemma entryRequests_length entry : length (entryRequests entry) = filesOf entry.
Proof.
  unfold entryRequests, videoRequests, invoiceRequests, filesOf, truthy.
  rewrite length_app, length_map.
  now destruct (in_videoFileName (snd entry)) as [[|a s]|].
Qed.

Lemma no_evidence_no_requests entries :
  hasUploadedVideoOrInvoice entries = false ->
  concat (map entryRequests entries) = [].
Proof.
  intros H. apply hasUploadedVideoOrInvoice_false in H.
  induction H as [|entry l [Hv Hi] _ IH]; [reflexivity|].
  cbn [map concat]. rewrite IH.
  unfold entryRequests, videoRequests, invoiceRequests. rewrite Hi.
  destruct Hv as [-> | ->]; reflexivity.
Qed.

(** X11.  The gateway traffic of a call of [createForm] that returns: the
    requests it has sent are, category after category in the order of the
    entries, the request for the category's video if a name was supplied,
    then one request per invoice name in input order -- one request per
    file, none for a category without files. *)
Theorem createForm_requests
    (input : CreateFormInput) (w w' : World) (resp : CreateFormResponse) :
  createForm input w = (inr resp, w') ->
  s3Log w' = s3Log w ++ concat (map entryRequests (Object_entries input))
  /\ length (s3Log w')
     = length (s3Log w) + list_sum (map filesOf (Object_entries input)).
Proof.
  intros H.
  assert (Hlog : s3Log w'
                 = s3Log w ++ concat (map entryRequests (Object_entries input))).
  { destruct (createForm_ok _ _ _ _ H) as [user [_ [_ [_ [_ [_ Hcase]]]]]].
    destruct (hasUploadedVideoOrInvoice (Object_entries input)) eqn:Hev.
    - destruct Hcase as [docs [_ [_ [_ [_ [_ [Hl _]]]]]]]. exact Hl.
    - destruct Hcase as [_ [_ [Hl _]]].
      rewrite (no_evidence_no_requests _ Hev), app_nil_r. exact Hl. }
  split; [exact Hlog|]. rewrite Hlog, length_app. f_equal.
  generalize (Object_entries input). intros l.
  induction l as [|entry l IH]; [reflexivity|].
  cbn [map concat list_sum fold_right]. rewrite length_app, entryRequests_length.
  now rewrite IH.
Qed.

(** X12.  The response mirrors the table: the k-th record of the response
    of [createForm] and the k-th Document the call has written name the
    same category and carry the same video file name and the same invoice
    file names; the record has as many invoice upload URLs as invoice file
    names, and an empty video upload URL when it has no video file name. *)
Theorem createForm_response_mirrors_documents
    (input : CreateFormInput) (w w' : World) (resp : CreateFormResponse) :
  createForm input w = (inr resp, w') ->
  forall k r, s3 resp !! k = Some r ->
    exists d,
      documents w' !! (length (documents w) + k) = Some d
      /\ residueType d = residue r
      /\ videoFileName d = up_videoFileName r
      /\ invoicesFileName d = up_invoicesFileName r
      /\ formId d = form_id (form resp)
      /\ length (invoicesCreateUrl r) = length (up_invoicesFileName r)
      /\ (up_videoFileName r = None -> videoCreateUrl r = "").
Proof.
  intros H k r Hr.
  destruct (createForm_rows _ _ _ _ H) as [docs [Hd [Hlen [_ Hk]]]].
  destruct (Hk k) as [entry [v [invs [_ [_ [Hup Hdoc]]]]]].
  { rewrite Hlen. eapply lookup_lt_Some; eauto. }
  rewrite Hr in Hup. inversion Hup; subst r. clear Hup.
  eexists. split.
  - rewrite Hd, lookup_app_r by lia.
    replace (length (documents w) + k - length (documents w)) with k by lia.
    exact Hdoc.
  - cbn. rewrite !length_map. repeat split.
    destruct v; [discriminate | reflexivity].
Qed.

(** ** Further properties: listings and the older report *)

Lemma find_app_last {A} (p : A -> bool) (l : list A) (x : A) :
  find p (l ++ [x])
  = match find p l with
    | Some y => Some y
    | None => if p x then Some x else None
    end.
Proof.
  induction l as [|a l IH]; simpl; [reflexivity|].
  destruct (p a); [reflexivity | exact IH].
Qed.

(** X13.  Reading back what [createForm] wrote: when no row of the table
    already has the identity the database gives to the new row, the Form
    that [createForm] returns is the one [findByFormId] finds under its
    identity afterwards; it is owned by the resolved uploader, carries the
    wallet address of the input, is not authorized and has no metadata
    URL. *)
Theorem createForm_then_findByFormId
    (input : CreateFormInput) (w w' : World) (resp : CreateFormResponse) :
  (forall g, In g (forms w) -> form_id g <> uuid (clock w)) ->
  createForm input w = (inr resp, w') ->
  findByFormId (form_id (form resp)) w' = (inr (form resp), w')
  /\ isFormAuthorizedByAdmin (form resp) = false
  /\ formMetadataUrl (form resp) = None
  /\ walletAddress (form resp) = in_walletAddress input
  /\ exists user,
       findUserByAuthUserId (in_authUserId input) w = (inr user, w)
       /\ userId (form resp) = user_id user.
Proof.
  intros Hfresh H.
  destruct (createForm_ok _ _ _ _ H) as [user [Hu [_ [Hform [Hforms _]]]]].
  split; [|rewrite Hform; repeat split].
  - unfold findByFormId, bind, prisma_form_findUnique.
    rewrite Hforms, find_app_last.
    destruct (find (fun f => String.eqb (form_id f) (form_id (form resp))) (forms w))
      as [g|] eqn:Hg.
    + exfalso. apply find_some in Hg. destruct Hg as [Hin Hid].
      apply String.eqb_eq in Hid. apply (Hfresh g Hin).
      rewrite Hid, Hform. reflexivity.
    + now rewrite String.eqb_refl.
  - exists user. unfold findUserByAuthUserId. rewrite Hu. split; reflexivity.
Qed.

(** X14.  A submission shows up in the uploader's own listing and in no
    other: after a call of [createForm] that returned, the listing
    [listAllFromUserByUserId] of the owner of the new Form is the listing
    before the call followed by the new Form, and the listing of any other
    user is the listing before the call. *)
Theorem createForm_then_listAllFromUserByUserId
    (input : CreateFormInput) (w w' : World) (resp : CreateFormResponse) :
  createForm input w = (inr resp, w') ->
  forall uid,
    exists before,
      listAllFromUserByUserId uid w = (inr before, w)
      /\ listAllFromUserByUserId uid w'
         = (inr (before ++ (if String.eqb (userId (form resp)) uid
                            then [form resp] else [])), w')
      /\ Forall (fun f => userId f = uid) before.
Proof.
  intros H uid.
  destruct (createForm_ok _ _ _ _ H) as [user [_ [_ [_ [Hforms _]]]]].
  eexists. split; [reflexivity|]. split.
  - unfold listAllFromUserByUserId, prisma_form_findMany_byUserId.
    rewrite Hforms, List.filter_app. cbn [List.filter]. reflexivity.
  - apply List.Forall_forall. intros f Hin. apply filter_In in Hin.
    destruct Hin as [_ Hid]. now apply String.eqb_eq.
Qed.

Lemma insert_newest_first_perm (f : Form) (l : list Form) :
  Permutation (f :: l) (insert_newest_first f l).
Proof.
  induction l as [|g l IH]; simpl; [reflexivity|].
  destruct (Nat.leb (form_createdAt g) (form_createdAt f)); [reflexivity|].
  rewrite perm_swap. now constructor.
Qed.

Lemma insert_newest_first_sorted (f : Form) (l : list Form) :
  Sorted newer_or_same l -> Sorted newer_or_same (insert_newest_first f l).
Proof.
  induction 1 as [|g l Hs IH Hhd]; simpl.
  - repeat constructor.
  - destruct (Nat.leb (form_createdAt g) (form_createdAt f)) eqn:E.
    + apply Nat.leb_le in E. constructor; [now constructor|].
      constructor. exact E.
    + apply Nat.leb_gt in E. constructor; [exact IH|].
      destruct l as [|h l]; simpl.
      * constructor. unfold newer_or_same. lia.
      * inversion Hhd; subst.
        destruct (Nat.leb (form_createdAt h) (form_createdAt f));
          constructor; [unfold newer_or_same; lia | assumption].
Qed.

(** X15.  [listAllForms] changes nothing and never fails; the list it
    returns holds the rows of the forms table, each as often as the table
    does, and runs from the newest to the oldest: no Form in it was created
    later than one that precedes it. *)
Theorem listAllForms_newest_first (w : World) :
  exists l,
    listAllForms w = (inr l, w)
    /\ Permutation (forms w) l
    /\ StronglySorted newer_or_same l.
Proof.
  eexists. split; [reflexivity|].
  unfold orderBy_createdAt_desc. split.
  - induction (forms w) as [|f l IH]; simpl; [reflexivity|].
    rewrite <- insert_newest_first_perm. now constructor.
  - apply Sorted_StronglySorted.
    + intros a b c Hab Hbc. unfold newer_or_same in *. lia.
    + induction (forms w) as [|f l IH]; simpl; [constructor|].
      now apply insert_newest_first_sorted.
Qed.

Lemma orderBy_newest_last (f : Form) (l : list Form) :
  Forall (fun g => form_createdAt g < form_createdAt f) l ->
  orderBy_createdAt_desc (l ++ [f]) = f :: orderBy_createdAt_desc l.
Proof.
  unfold orderBy_createdAt_desc. rewrite fold_right_app.
  cbn [fold_right insert_newest_first].
  induction 1 as [|g l Hg _ IH]; simpl; [reflexivity|].
  rewrite IH. simpl.
  destruct (Nat.leb (form_createdAt f) (form_createdAt g)) eqn:E;
    [|reflexivity].
  apply Nat.leb_le in E. lia.
Qed.

(** X16.  The newest submission heads the listing: when every row of the
    forms table was created before the present tick of the clock, the
    listing [listAllForms] after a call of [createForm] that returned is the
    new Form followed by the listing before the call. *)
Theorem createForm_then_listAllForms
    (input : CreateFormInput) (w w' : World) (resp : CreateFormResponse) :
  Forall (fun g => form_createdAt g < clock w) (forms w) ->
  createForm input w = (inr resp, w') ->
  exists before,
    listAllForms w = (inr before, w)
    /\ listAllForms w' = (inr (form resp :: before), w').
Proof.
  intros Hold H.
  destruct (createForm_ok _ _ _ _ H) as [user [_ [_ [Hform [Hforms _]]]]].
  eexists. split; [reflexivity|].
  unfold listAllForms, prisma_form_findMany_newest_first.
  rewrite Hforms, orderBy_newest_last; [reflexivity|].
  rewrite Hform. exact Hold.
Qed.

Lemma fold_left_fold_right_Qcplus (l : list Qc) :
  fold_left Qcplus l 0%Qc = fold_right Qcplus 0%Qc l.
Proof.
  induction l as [|x l IH]; simpl; [reflexivity|].
  rewrite fold_left_Qcplus, IH. ring.
Qed.

Lemma sum_column_reports (column : Form -> Qc) (w : World) (p : ProfileType) :
  reportsColumn column w p
    (sum_column column (List.filter (formOfProfile w p) (forms w))).
Proof.
  unfold reportsColumn, sum_column, kgsOfProfile.
  destruct (List.filter (formOfProfile w p) (forms w)) as [|f l];
    [reflexivity|].
  now rewrite fold_left_fold_right_Qcplus.
Qed.

(** X17.  The older report [listFormDetails] changes nothing and never
    fails; it returns one entry for RECYCLER and one for WASTE_GENERATOR,
    and each of the five sums of an entry is the sum of that quantity column
    over the Forms that belong to a user of the profile type -- or nothing at
    all, not zero, when there is no such Form. *)
Theorem listFormDetails_sums (w : World) :
  exists r g,
    listFormDetails w
    = (inr [ mkFormDetails RECYCLER r; mkFormDetails WASTE_GENERATOR g ], w)
    /\ reportsSums w RECYCLER r
    /\ reportsSums w WASTE_GENERATOR g.
Proof.
  do 2 eexists. split; [reflexivity|].
  unfold reportsSums. cbn [sum_glassKgs sum_metalKgs sum_organicKgs sum_paperKgs
                           sum_plasticKgs].
  repeat split; apply sum_column_reports.
Qed.

Lemma kgsOfProfile_new_form (column : Form -> Qc) (w w' : World) (f : Form)
    (p : ProfileType) :
  forms w' = forms w ++ [f] -> users w' = users w -> column f = 0%Qc ->
  kgsOfProfile column w' p = kgsOfProfile column w p.
Proof.
  intros Hf Hu H0. unfold kgsOfProfile.
  assert (Hsame : forall g, formOfProfile w' p g = formOfProfile w p g).
  { intros g. unfold formOfProfile. now rewrite Hu. }
  rewrite Hf, (filter_ext _ _ Hsame), List.filter_app, map_app, fold_right_app.
  cbn [List.filter]. destruct (formOfProfile w p f); cbn [map fold_right].
  - rewrite H0. now replace (0 + 0)%Qc with 0%Qc by ring.
  - reflexivity.
Qed.

(** X18.  The older report does not see submissions: a call of
    [createForm] that returned leaves the sum of each of the five quantity
    columns over the Forms of every profile type as it was, whatever amounts
    were submitted. *)
Theorem createForm_keeps_form_quantities
    (input : CreateFormInput) (w w' : World) (resp : CreateFormResponse) :
  createForm input w = (inr resp, w') ->
  forall p,
    kgsOfProfile glassKgs w' p = kgsOfProfile glassKgs w p
    /\ kgsOfProfile metalKgs w' p = kgsOfProfile metalKgs w p
    /\ kgsOfProfile organicKgs w' p = kgsOfProfile organicKgs w p
    /\ kgsOfProfile paperKgs w' p = kgsOfProfile paperKgs w p
    /\ kgsOfProfile plasticKgs w' p = kgsOfProfile plasticKgs w p.
Proof.
  intros H p.
  destruct (createForm_ok _ _ _ _ H) as [user [_ [_ [Hform [Hforms [Husers _]]]]]].
  repeat split; apply (kgsOfProfile_new_form _ _ _ _ _ Hforms Husers);
    rewrite Hform; reflexivity.
Qed.

(** ** Further properties: submissions and the aggregate *)

Lemma aggregateFormByUserProfile_run (w : World) :
  aggregateFormByUserProfile w
  = (inr [ mkAggregate RECYCLER (amountOfProfile w RECYCLER);
           mkAggregate WASTE_GENERATOR (amountOfProfile w WASTE_GENERATOR) ], w).
Proof.
  assert (Hagg : forall p,
    or_zero
      (match List.filter
               (fun d => existsb (String.eqb (formId d))
                           (map form_id (List.filter (formOfProfile w p) (forms w))))
               (documents w) with
       | [] => None
       | _ :: _ =>
           Some (fold_left Qcplus
                   (map amount
                      (List.filter
                         (fun d => existsb (String.eqb (formId d))
                                     (map form_id
                                        (List.filter (formOfProfile w p) (forms w))))
                         (documents w))) 0%Qc)
       end) = amountOfProfile w p).
  { intros p. rewrite or_zero_sum. unfold amountOfProfile. f_equal.
    apply filter_ext. intros d. apply matches_forms_of_profile. }
  unfold aggregateFormByUserProfile, bind, Promise_all2, ret,
    prisma_form_findMany_byProfile, prisma_document_aggregate_sum_amount.
  cbn [fst snd]. fold (formOfProfile w RECYCLER) (formOfProfile w WASTE_GENERATOR).
  now rewrite !Hagg.
Qed.

Lemma sumOfAmounts_app (l1 l2 : list Document) :
  sumOfAmounts (l1 ++ l2) = (sumOfAmounts l1 + sumOfAmounts l2)%Qc.
Proof.
  induction l1 as [|d l1 IH]; simpl; [ring|]. rewrite IH. ring.
Qed.

Lemma documentOfProfile_new_form (w w' : World) (f : Form) (p : ProfileType)
    (d : Document) :
  forms w' = forms w ++ [f] -> users w' = users w ->
  documentOfProfile w' p d
  = documentOfProfile w p d
    || (String.eqb (form_id f) (formId d) && formOfProfile w p f).
Proof.
  intros Hf Hu. unfold documentOfProfile.
  assert (Hsame : forall g, formOfProfile w' p g = formOfProfile w p g).
  { intros g. unfold formOfProfile. now rewrite Hu. }
  assert (Hall : forall l,
    existsb (fun g => String.eqb (form_id g) (formId d) && formOfProfile w' p g) l
    = existsb (fun g => String.eqb (form_id g) (formId d) && formOfProfile w p g) l).
  { induction l as [|g l IH]; simpl; [reflexivity|]. now rewrite Hsame, IH. }
  rewrite Hall, Hf, existsb_app. cbn [existsb]. now rewrite orb_false_r.
Qed.

Lemma amountOfProfile_old_documents (w w' : World) (f : Form) (p : ProfileType) :
  forms w' = forms w ++ [f] -> users w' = users w ->
  (forall d, In d (documents w) -> formId d <> form_id f) ->
  sumOfAmounts (List.filter (documentOfProfile w' p) (documents w))
  = amountOfProfile w p.
Proof.
  intros Hf Hu Hfresh. unfold amountOfProfile. f_equal.
  apply filter_ext_in. intros d Hin.
  rewrite (documentOfProfile_new_form _ _ _ _ _ Hf Hu).
  assert (E : String.eqb (form_id f) (formId d) = false).
  { apply String.eqb_neq. intros Heq. apply (Hfresh d Hin). now symmetry. }
  rewrite E. cbn [andb]. apply orb_false_r.
Qed.

(** X19.  A submission without evidence counts for nothing in the
    aggregate: [createForm] then writes no Document, so -- provided no
    Document already refers to the identity the new Form receives -- the
    report of [aggregateFormByUserProfile] after the call is the report
    before it, whatever amounts the submission declared. *)
Theorem createForm_without_evidence_keeps_aggregates
    (input : CreateFormInput) (w w' : World) (resp : CreateFormResponse) :
  hasUploadedVideoOrInvoice (Object_entries input) = false ->
  (forall d, In d (documents w) -> formId d <> uuid (clock w)) ->
  createForm input w = (inr resp, w') ->
  fst (aggregateFormByUserProfile w') = fst (aggregateFormByUserProfile w).
Proof.
  intros Hev Hfresh H.
  destruct (createForm_ok _ _ _ _ H)
    as [user [_ [_ [Hform [Hforms [Husers Hcase]]]]]].
  rewrite Hev in Hcase. destruct Hcase as [_ [Hdocs _]].
  assert (Hsame : forall p, amountOfProfile w' p = amountOfProfile w p).
  { intros p. unfold amountOfProfile at 1. rewrite Hdocs.
    apply (amountOfProfile_old_documents _ _ _ _ Hforms Husers).
    rewrite Hform. exact Hfresh. }
  rewrite !aggregateFormByUserProfile_run. cbn [fst]. now rewrite !Hsame.
Qed.

(** X20.  A submission with evidence counts in full for the uploader's
    profile type and for no other: provided the identity the new Form
    receives is borne by no Form and referred to by no Document, and the
    uploader is the user found under the uploader's own identity, each
    entry of the report of [aggregateFormByUserProfile] after a call of
    [createForm] that returned is the entry before the call, increased by
    the sum of the five submitted amounts when the entry's profile type is
    the uploader's. *)
Theorem createForm_adds_to_aggregate
    (input : CreateFormInput) (w w' : World) (resp : CreateFormResponse)
    (user : User) :
  hasUploadedVideoOrInvoice (Object_entries input) = true ->
  (forall g, In g (forms w) -> form_id g <> uuid (clock w)) ->
  (forall d, In d (documents w) -> formId d <> uuid (clock w)) ->
  findUserByAuthUserId (in_authUserId input) w = (inr user, w) ->
  findUserByUserId (user_id user) w = (inr user, w) ->
  createForm input w = (inr resp, w') ->
  exists a b,
    aggregateFormByUserProfile w
    = (inr [ mkAggregate RECYCLER a; mkAggregate WASTE_GENERATOR b ], w)
    /\ aggregateFormByUserProfile w'
       = (inr [ mkAggregate RECYCLER
                  (a + if ProfileType_eqb (profileType user) RECYCLER
                       then submittedAmount input else 0)%Qc;
                mkAggregate WASTE_GENERATOR
                  (b + if ProfileType_eqb (profileType user) WASTE_GENERATOR
                       then submittedAmount input else 0)%Qc ], w').
Proof.
  intros Hev Hfreshf Hfreshd Hauth Hid H.
  destruct (createForm_ok _ _ _ _ H)
    as [user' [Hu [_ [Hform [Hforms [Husers _]]]]]].
  unfold findUserByAuthUserId in Hauth. rewrite Hu in Hauth.
  inversion Hauth; subst user'. clear Hauth.
  destruct (createForm_rows _ _ _ _ H) as [docs [Hd [_ [Hlen Hk]]]].
  rewrite Hev in Hlen. change (length (Object_entries input)) with 5 in Hlen.
  assert (Hof : forall p, formOfProfile w p (form resp)
                          = ProfileType_eqb (profileType user) p).
  { intros p. unfold formOfProfile. rewrite Hform. cbn [userId].
    unfold findUserByUserId in Hid.
    destruct (find (fun u => String.eqb (user_id u) (user_id user)) (users w))
      as [u|]; inversion Hid; reflexivity. }
  assert (Hnew : forall p entry v i n,
    documentOfProfile w' p (documentOf (form resp) entry v i n)
    = ProfileType_eqb (profileType user) p).
  { intros p entry v i n.
    rewrite (documentOfProfile_new_form _ _ _ _ _ Hforms Husers).
    cbn [formId documentOf]. rewrite String.eqb_refl, Hof. cbn [andb].
    replace (documentOfProfile w p (documentOf (form resp) entry v i n))
      with false; [reflexivity|].
    symmetry. unfold documentOfProfile. cbn [formId documentOf].
    apply not_true_is_false. intros Hex. apply existsb_exists in Hex.
    destruct Hex as [g [Hin Hg]]. apply andb_true_iff in Hg.
    destruct Hg as [Hg _]. apply String.eqb_eq in Hg.
    apply (Hfreshf g Hin). rewrite Hg, Hform. reflexivity. }
  assert (Hsum : forall p,
    amountOfProfile w' p
    = (amountOfProfile w p
       + if ProfileType_eqb (profileType user) p
         then submittedAmount input else 0)%Qc).
  { intros p. unfold amountOfProfile at 1.
    rewrite Hd, List.filter_app, sumOfAmounts_app.
    rewrite (amountOfProfile_old_documents _ _ _ _ Hforms Husers)
      by (rewrite Hform; exact Hfreshd).
    f_equal.
    destruct docs as [|d0 [|d1 [|d2 [|d3 [|d4 [|d5 ds]]]]]]; try discriminate.
    destruct (Hk 0) as [e0 [v0 [i0 [E0 [_ [_ D0]]]]]]; [simpl; lia|].
    destruct (Hk 1) as [e1 [v1 [i1 [E1 [_ [_ D1]]]]]]; [simpl; lia|].
    destruct (Hk 2) as [e2 [v2 [i2 [E2 [_ [_ D2]]]]]]; [simpl; lia|].
    destruct (Hk 3) as [e3 [v3 [i3 [E3 [_ [_ D3]]]]]]; [simpl; lia|].
    destruct (Hk 4) as [e4 [v4 [i4 [E4 [_ [_ D4]]]]]]; [simpl; lia|].
    inversion E0; inversion E1; inversion E2; inversion E3; inversion E4.
    inversion D0; inversion D1; inversion D2; inversion D3; inversion D4.
    subst. cbn [List.filter]. rewrite !Hnew.
    destruct (ProfileType_eqb (profileType user) p).
    - cbn [sumOfAmounts amount documentOf snd]. unfold submittedAmount. ring.
    - reflexivity. }
  do 2 eexists. split; [apply aggregateFormByUserProfile_run|].
  rewrite aggregateFormByUserProfile_run, !Hsum. reflexivity.
Qed.


End FormsService.

(** * Examples *)

(** ** The URL class of the examples meets the standard's two facts *)

Lemma sample_URL_path_has_no_question (s : string) (u : URL) :
  Sample.new_URL s = Some u -> has_question (origin u +:+ pathname u) = false.
Proof.
  unfold Sample.new_URL. destruct (URL_of_serialised s) as [u0|]; [|discriminate].
  destruct (has_question (origin u0 +:+ pathname u0)) eqn:E; [discriminate|].
  intros H; inversion H; subst u0. exact E.
Qed.

Lemma sample_URL_query_follows_question (s : string) (u : URL) :
  Sample.new_URL s = Some u -> search u <> "" -> has_question s = true.
Proof.
  unfold Sample.new_URL.
  destruct (URL_of_serialised s) as [u0|] eqn:Eu; [|discriminate].
  destruct (has_question (origin u0 +:+ pathname u0)); [discriminate|].
  intros H; inversion H; subst u0.
  exact (URL_of_serialised_question _ _ Eu).
Qed.

(** ** The service on the sample inputs *)

Example createForm_plasticInvoice_documents :
  map (fun d => (residueType d, invoicesFileName d))
      (documents (snd (createForm Sample.uuid Sample.s3_respond Sample.plasticInvoice Sample.world)))
  = [ (GLASS, []); (METAL, []); (ORGANIC, []); (PAPER, []);
      (PLASTIC, ["PLASTIC/0-invoice1.pdf"]) ].
Proof. vm_compute. reflexivity. Qed.

Example createForm_hodler_with_evidence_forbidden :
  createForm Sample.uuid Sample.s3_respond
             (mkCreateFormInput "auth0|hodler" None Sample.nothing Sample.nothing
                Sample.nothing Sample.nothing
                (mkResidueInput 0%Qc None ["invoice1.pdf"]))
             Sample.world
  = (inl (ForbiddenException "User do not have permission to submit files"),
     Sample.world).
Proof. vm_compute. reflexivity. Qed.

(** The aggregate of the specification's example: Documents of a recycler
    that sum to 12.5 kg, and nothing for waste generators. *)
Example aggregateFormByUserProfile_twoResidues :
  let w := snd (createForm Sample.uuid Sample.s3_respond Sample.twoResidues
                           Sample.world) in
  map (fun a => (agg_id a, this (data a))) (Sample.returned [] (aggregateFormByUserProfile w))
  = [ (RECYCLER, 25 # 2); (WASTE_GENERATOR, 0 # 1) ].
Proof. vm_compute. reflexivity. Qed.

Example authorizeForm_twoResidues :
  let w := snd (createForm Sample.uuid Sample.s3_respond Sample.twoResidues
                           Sample.world) in
  map isFormAuthorizedByAdmin (forms (snd (authorizeForm "id-0" true w))) = [true]
  /\ documents (snd (authorizeForm "id-0" true w)) = documents w
  /\ authorizeForm "id-9" true w = (inl (NotFoundException "Form not found"), w).
Proof. vm_compute. repeat split. Qed.

Example createFormMetadata_twoResidues_body :
  let w := snd (createForm Sample.uuid Sample.s3_respond Sample.twoResidues
                           Sample.world) in
  body (Sample.returned (mkFormMetadataResponse "" "")
          (createFormMetadata Sample.s3_respond Sample.getResidueTitle
             Sample.String_of_number Sample.JSON_stringify Sample.new_URL "id-0" w))
  = "Originating wallet=0xabc,Audit=Not Verified,Glass kgs=5/2,Metal kgs=0/1,"
    +:+ "Organic kgs=0/1,Paper kgs=0/1,Plastic kgs=10/1,recycler@detrash.example".
Proof. vm_compute. reflexivity. Qed.

Example URL_of_serialised_presigned :
  URL_of_serialised "https://detrash-public.s3.amazonaws.com/metadata/id-0.json?X-Amz-Expires=900"
  = Some (mkURL "https://detrash-public.s3.amazonaws.com" "/metadata/id-0.json"
                "?X-Amz-Expires=900" "").
Proof. vm_compute. reflexivity. Qed.

(** ** The theorems at the examples *)

Lemma createForm_without_evidence_witness :
  s3Log (snd (createForm Sample.uuid Sample.s3_respond Sample.quantitiesOnly
                         Sample.world)) = []
  /\ documents (snd (createForm Sample.uuid Sample.s3_respond Sample.quantitiesOnly
                                Sample.world)) = []
  /\ exists form,
       fst (createForm Sample.uuid Sample.s3_respond Sample.quantitiesOnly
                       Sample.world) = inr (mkCreateFormResponse form [])
       /\ userId form = "user-3".
Proof.
  destruct (createForm_without_evidence Sample.uuid Sample.s3_respond
              Sample.quantitiesOnly Sample.world) as [H1 [H2 H3]].
  - unfold Object_entries.
    repeat (apply List.Forall_cons;
            [split; [first [left; reflexivity | right; reflexivity] | reflexivity]|]).
    apply List.Forall_nil.
  - split; [exact H1|]. split; [exact H2|].
    destruct (H3 Sample.hodler) as [form [Hc [Hu _]]]; [vm_compute; reflexivity|].
    exists form. rewrite Hc. split; [reflexivity | exact Hu].
Defined.

Lemma createForm_one_document_per_category_witness :
  hasUploadedVideoOrInvoice (Object_entries Sample.plasticInvoice) = true
  /\ exists docs,
       documents (snd (createForm Sample.uuid Sample.s3_respond Sample.plasticInvoice Sample.world)) = documents Sample.world ++ docs
       /\ map residueType docs = [GLASS; METAL; ORGANIC; PAPER; PLASTIC].
Proof.
  split; [reflexivity|].
  destruct (createForm_one_document_per_category Sample.uuid Sample.s3_respond
              Sample.plasticInvoice Sample.world (snd (createForm Sample.uuid Sample.s3_respond Sample.plasticInvoice Sample.world))
              (Sample.returned Sample.noResponse (createForm Sample.uuid Sample.s3_respond Sample.plasticInvoice Sample.world)))
    as [docs [H1 [H2 _]]].
  - reflexivity.
  - vm_compute. reflexivity.
  - exists docs. split; assumption.
Defined.

Lemma createForm_invoice_urls_in_order_witness :
  createForm Sample.uuid Sample.s3_respond Sample.negativeGlass Sample.world
  = (inr (Sample.returned Sample.noResponse (createForm Sample.uuid Sample.s3_respond Sample.negativeGlass Sample.world)),
     snd (createForm Sample.uuid Sample.s3_respond Sample.negativeGlass Sample.world))
  /\ length (s3 (Sample.returned Sample.noResponse (createForm Sample.uuid Sample.s3_respond Sample.negativeGlass Sample.world))) = 5
  /\ forall r,
       s3 (Sample.returned Sample.noResponse (createForm Sample.uuid Sample.s3_respond Sample.negativeGlass Sample.world)) !! 3 = Some r ->
       residue r = PAPER /\ length (invoicesCreateUrl r) = 2.
Proof.
  assert (Hrun : createForm Sample.uuid Sample.s3_respond Sample.negativeGlass
                            Sample.world
                 = (inr (Sample.returned Sample.noResponse (createForm Sample.uuid Sample.s3_respond Sample.negativeGlass Sample.world)),
                    snd (createForm Sample.uuid Sample.s3_respond Sample.negativeGlass Sample.world))).
  { vm_compute. reflexivity. }
  split; [exact Hrun|].
  destruct (createForm_invoice_urls_in_order Sample.uuid Sample.s3_respond
              Sample.negativeGlass Sample.world (snd (createForm Sample.uuid Sample.s3_respond Sample.negativeGlass Sample.world))
              (Sample.returned Sample.noResponse (createForm Sample.uuid Sample.s3_respond Sample.negativeGlass Sample.world)) Hrun)
    as [Hlen Hrec].
  split; [exact (Hlen eq_refl)|].
  intros r Hr. destruct (Hrec 3 r Hr) as [rt [props [He [Hres [Hl _]]]]].
  injection He as E1 E2. rewrite <- E1 in Hres. rewrite <- E2 in Hl.
  split; [exact Hres | exact Hl].
Defined.

Lemma createForm_stores_storage_names_witness :
  hasUploadedVideoOrInvoice (Object_entries Sample.plasticInvoice) = true
  /\ exists docs d r,
       documents (snd (createForm Sample.uuid Sample.s3_respond Sample.plasticInvoice Sample.world)) = documents Sample.world ++ docs
       /\ docs !! 4 = Some d
       /\ invoicesFileName d = ["PLASTIC/0-invoice1.pdf"]
       /\ s3 (Sample.returned Sample.noResponse (createForm Sample.uuid Sample.s3_respond Sample.plasticInvoice Sample.world)) !! 4 = Some r
       /\ length (invoicesCreateUrl r) = 1.
Proof.
  split; [reflexivity|].
  destruct (createForm_stores_storage_names Sample.uuid Sample.s3_respond
              Sample.plasticInvoice Sample.world (snd (createForm Sample.uuid Sample.s3_respond Sample.plasticInvoice Sample.world))
              (Sample.returned Sample.noResponse (createForm Sample.uuid Sample.s3_respond Sample.plasticInvoice Sample.world)))
    as [docs [Hd [_ Hone]]].
  - reflexivity.
  - vm_compute. reflexivity.
  - destruct (Hone "invoice1.pdf" eq_refl)
      as [o [d [r [Ho [Hdoc [_ [Hnames [Hrec [_ Hurls]]]]]]]]].
    exists docs, d, r. repeat split; try assumption.
    + rewrite Hnames. vm_compute in Ho. inversion Ho. reflexivity.
    + now rewrite Hurls.
Defined.

Lemma createForm_amounts_as_submitted_witness :
  createForm Sample.uuid Sample.s3_respond Sample.negativeGlass Sample.world
  = (inr (Sample.returned Sample.noResponse (createForm Sample.uuid Sample.s3_respond Sample.negativeGlass Sample.world)),
     snd (createForm Sample.uuid Sample.s3_respond Sample.negativeGlass Sample.world))
  /\ exists docs d,
       documents (snd (createForm Sample.uuid Sample.s3_respond Sample.negativeGlass Sample.world)) = documents Sample.world ++ docs
       /\ docs !! 0 = Some d
       /\ residueType d = GLASS
       /\ amount d = Q2Qc (-1).
Proof.
  assert (Hrun : createForm Sample.uuid Sample.s3_respond Sample.negativeGlass
                            Sample.world
                 = (inr (Sample.returned Sample.noResponse (createForm Sample.uuid Sample.s3_respond Sample.negativeGlass Sample.world)),
                    snd (createForm Sample.uuid Sample.s3_respond Sample.negativeGlass Sample.world))).
  { vm_compute. reflexivity. }
  split; [exact Hrun|].
  destruct (createForm_amounts_as_submitted Sample.uuid Sample.s3_respond
              Sample.negativeGlass Sample.world (snd (createForm Sample.uuid Sample.s3_respond Sample.negativeGlass Sample.world))
              (Sample.returned Sample.noResponse (createForm Sample.uuid Sample.s3_respond Sample.negativeGlass Sample.world)) Hrun)
    as [[docs [Hd Hk]] _].
  destruct docs as [|d docs].
  - exfalso. vm_compute in Hd. discriminate Hd.
  - destruct (Hk 0 d eq_refl) as [rt [props [He [Hrt Ham]]]].
    injection He as E1 E2. rewrite <- E1 in Hrt. rewrite <- E2 in Ham.
    exists (d :: docs), d. repeat split; assumption.
Defined.

(** C9 as the specification states it fails: a submission with a negative
    amount for GLASS, which the service accepts, leaves a Document whose
    stored amount is negative. *)
Lemma createForm_stores_negative_amount :
  exists d,
    In d (documents (snd (createForm Sample.uuid Sample.s3_respond
                                     Sample.negativeGlass Sample.world)))
    /\ ~ In d (documents Sample.world)
    /\ residueType d = GLASS
    /\ (amount d < 0)%Qc.
Proof.
  eexists. split; [vm_compute; left; reflexivity|].
  split; [intros []|]. split; reflexivity.
Qed.


Lemma createFormMetadata_stored_url_witness :
  exists r w' g,
    createFormMetadata Sample.s3_respond Sample.getResidueTitle
                       Sample.String_of_number Sample.JSON_stringify Sample.new_URL "id-0"
                       (snd (createForm Sample.uuid Sample.s3_respond
                                        Sample.plasticInvoice Sample.world))
    = (inr r, w')
    /\ In g (forms w')
    /\ formMetadataUrl g
       = Some "https://detrash-public.s3.amazonaws.com/metadata/id-0.json"
    /\ formMetadataUrl g <> Some (createMetadataUrl r).
Proof.
  exists (Sample.returned (mkFormMetadataResponse "" "")
            (createFormMetadata Sample.s3_respond Sample.getResidueTitle
               Sample.String_of_number Sample.JSON_stringify Sample.new_URL "id-0"
               (snd (createForm Sample.uuid Sample.s3_respond
                                Sample.plasticInvoice Sample.world)))).
  exists (snd (createFormMetadata Sample.s3_respond Sample.getResidueTitle
                 Sample.String_of_number Sample.JSON_stringify Sample.new_URL "id-0"
                 (snd (createForm Sample.uuid Sample.s3_respond
                                  Sample.plasticInvoice Sample.world)))).
  match goal with |- exists _, ?run = ?res /\ _ =>
    assert (Hrun : run = res) by (vm_compute; reflexivity) end.
  destruct (createFormMetadata_stored_url _ _ _ _ _
              sample_URL_path_has_no_question sample_URL_query_follows_question
              _ _ _ _ Hrun)
    as [obj [url [Ho [Hurl [_ [[g [Hin Hid]] [Hstored [Hdiffer _]]]]]]]].
  exists g. split; [exact Hrun|]. split; [exact Hin|].
  vm_compute in Ho. injection Ho as <-.
  vm_compute in Hurl. injection Hurl as <-.
  split.
  - exact (Hstored g Hin Hid).
  - apply (Hdiffer ltac:(discriminate) g Hin Hid).
Defined.

(** ** The further properties at the examples *)

Lemma authorizeForm_last_write_wins_witness :
  authorizeForm "id-0" false (snd (authorizeForm "id-0" true (snd (createForm Sample.uuid Sample.s3_respond Sample.twoResidues Sample.world)))) = authorizeForm "id-0" false (snd (createForm Sample.uuid Sample.s3_respond Sample.twoResidues Sample.world)).
Proof.
  assert (Hrun : (authorizeForm "id-0" true (snd (createForm Sample.uuid Sample.s3_respond Sample.twoResidues Sample.world))) = (inr (Sample.returned Sample.noForm (authorizeForm "id-0" true (snd (createForm Sample.uuid Sample.s3_respond Sample.twoResidues Sample.world)))), snd (authorizeForm "id-0" true (snd (createForm Sample.uuid Sample.s3_respond Sample.twoResidues Sample.world)))))
    by (vm_compute; reflexivity).
  apply authorizeForm_last_write_wins with (b2 := false) in Hrun.
  exact (proj1 Hrun).
Defined.

Lemma authorizeForm_then_findByFormId_witness :
  fst (findByFormId "id-0" (snd (authorizeForm "id-0" true (snd (createForm Sample.uuid Sample.s3_respond Sample.twoResidues Sample.world))))) = inr (Sample.returned Sample.noForm (authorizeForm "id-0" true (snd (createForm Sample.uuid Sample.s3_respond Sample.twoResidues Sample.world))))
  /\ isFormAuthorizedByAdmin (Sample.returned Sample.noForm (authorizeForm "id-0" true (snd (createForm Sample.uuid Sample.s3_respond Sample.twoResidues Sample.world)))) = true.
Proof.
  assert (Hrun : (authorizeForm "id-0" true (snd (createForm Sample.uuid Sample.s3_respond Sample.twoResidues Sample.world))) = (inr (Sample.returned Sample.noForm (authorizeForm "id-0" true (snd (createForm Sample.uuid Sample.s3_respond Sample.twoResidues Sample.world)))), snd (authorizeForm "id-0" true (snd (createForm Sample.uuid Sample.s3_respond Sample.twoResidues Sample.world)))))
    by (vm_compute; reflexivity).
  apply authorizeForm_then_findByFormId in Hrun.
  destruct Hrun as [Hfind [_ Hflag]]. rewrite Hfind. split; [reflexivity | exact Hflag].
Defined.

Lemma createFormMetadata_failure_writes_nothing_witness :
  fst (createFormMetadata Sample.s3_respond Sample.getResidueTitle Sample.String_of_number Sample.JSON_stringify Sample.new_URL "id-9" (snd (createForm Sample.uuid Sample.s3_respond Sample.twoResidues Sample.world))) = inl (NotFoundException "Form not found")
  /\ snd (createFormMetadata Sample.s3_respond Sample.getResidueTitle Sample.String_of_number Sample.JSON_stringify Sample.new_URL "id-9" (snd (createForm Sample.uuid Sample.s3_respond Sample.twoResidues Sample.world))) = (snd (createForm Sample.uuid Sample.s3_respond Sample.twoResidues Sample.world)).
Proof.
  assert (Hrun : (createFormMetadata Sample.s3_respond Sample.getResidueTitle Sample.String_of_number Sample.JSON_stringify Sample.new_URL "id-9" (snd (createForm Sample.uuid Sample.s3_respond Sample.twoResidues Sample.world))) = (inl (NotFoundException "Form not found"), snd (createFormMetadata Sample.s3_respond Sample.getResidueTitle Sample.String_of_number Sample.JSON_stringify Sample.new_URL "id-9" (snd (createForm Sample.uuid Sample.s3_respond Sample.twoResidues Sample.world)))))
    by (vm_compute; reflexivity).
  split; [now rewrite Hrun|].
  apply createFormMetadata_failure_writes_nothing in Hrun.
  destruct Hrun as [Hnf _]. exact (proj1 (Hnf _ eq_refl)).
Defined.

Lemma createFormMetadata_frame_witness :
  documents (snd (createFormMetadata Sample.s3_respond Sample.getResidueTitle Sample.String_of_number Sample.JSON_stringify Sample.new_URL "id-0" (snd (createForm Sample.uuid Sample.s3_respond Sample.twoResidues Sample.world)))) = documents (snd (createForm Sample.uuid Sample.s3_respond Sample.twoResidues Sample.world))
  /\ length (s3Log (snd (createFormMetadata Sample.s3_respond Sample.getResidueTitle Sample.String_of_number Sample.JSON_stringify Sample.new_URL "id-0" (snd (createForm Sample.uuid Sample.s3_respond Sample.twoResidues Sample.world))))) = 3.
Proof.
  assert (Hrun : (createFormMetadata Sample.s3_respond Sample.getResidueTitle Sample.String_of_number Sample.JSON_stringify Sample.new_URL "id-0" (snd (createForm Sample.uuid Sample.s3_respond Sample.twoResidues Sample.world))) = (inr (Sample.returned (mkFormMetadataResponse "" "") (createFormMetadata Sample.s3_respond Sample.getResidueTitle Sample.String_of_number Sample.JSON_stringify Sample.new_URL "id-0" (snd (createForm Sample.uuid Sample.s3_respond Sample.twoResidues Sample.world)))), snd (createFormMetadata Sample.s3_respond Sample.getResidueTitle Sample.String_of_number Sample.JSON_stringify Sample.new_URL "id-0" (snd (createForm Sample.uuid Sample.s3_respond Sample.twoResidues Sample.world)))))
    by (vm_compute; reflexivity).
  apply createFormMetadata_frame in Hrun.
  destruct Hrun as [Hd [_ [_ [Hl _]]]]. split; [exact Hd|].
  rewrite Hl. vm_compute. reflexivity.
Defined.

Lemma createFormMetadata_twice_witness :
  documents (snd (createFormMetadata Sample.s3_respond Sample.getResidueTitle Sample.String_of_number Sample.JSON_stringify Sample.new_URL "id-0" (snd (createFormMetadata Sample.s3_respond Sample.getResidueTitle Sample.String_of_number Sample.JSON_stringify Sample.new_URL "id-0" (snd (createForm Sample.uuid Sample.s3_respond Sample.twoResidues Sample.world)))))) = documents (snd (createForm Sample.uuid Sample.s3_respond Sample.twoResidues Sample.world))
  /\ length (forms (snd (createFormMetadata Sample.s3_respond Sample.getResidueTitle Sample.String_of_number Sample.JSON_stringify Sample.new_URL "id-0" (snd (createFormMetadata Sample.s3_respond Sample.getResidueTitle Sample.String_of_number Sample.JSON_stringify Sample.new_URL "id-0" (snd (createForm Sample.uuid Sample.s3_respond Sample.twoResidues Sample.world))))))) = 1.
Proof.
  assert (Hrun1 : (createFormMetadata Sample.s3_respond Sample.getResidueTitle Sample.String_of_number Sample.JSON_stringify Sample.new_URL "id-0" (snd (createForm Sample.uuid Sample.s3_respond Sample.twoResidues Sample.world))) = (inr (Sample.returned (mkFormMetadataResponse "" "") (createFormMetadata Sample.s3_respond Sample.getResidueTitle Sample.String_of_number Sample.JSON_stringify Sample.new_URL "id-0" (snd (createForm Sample.uuid Sample.s3_respond Sample.twoResidues Sample.world)))), snd (createFormMetadata Sample.s3_respond Sample.getResidueTitle Sample.String_of_number Sample.JSON_stringify Sample.new_URL "id-0" (snd (createForm Sample.uuid Sample.s3_respond Sample.twoResidues Sample.world)))))
    by (vm_compute; reflexivity).
  assert (Hrun2 : (createFormMetadata Sample.s3_respond Sample.getResidueTitle Sample.String_of_number Sample.JSON_stringify Sample.new_URL "id-0" (snd (createFormMetadata Sample.s3_respond Sample.getResidueTitle Sample.String_of_number Sample.JSON_stringify Sample.new_URL "id-0" (snd (createForm Sample.uuid Sample.s3_respond Sample.twoResidues Sample.world))))) = (inr (Sample.returned (mkFormMetadataResponse "" "") (createFormMetadata Sample.s3_respond Sample.getResidueTitle Sample.String_of_number Sample.JSON_stringify Sample.new_URL "id-0" (snd (createFormMetadata Sample.s3_respond Sample.getResidueTitle Sample.String_of_number Sample.JSON_stringify Sample.new_URL "id-0" (snd (createForm Sample.uuid Sample.s3_respond Sample.twoResidues Sample.world)))))), snd (createFormMetadata Sample.s3_respond Sample.getResidueTitle Sample.String_of_number Sample.JSON_stringify Sample.new_URL "id-0" (snd (createFormMetadata Sample.s3_respond Sample.getResidueTitle Sample.String_of_number Sample.JSON_stringify Sample.new_URL "id-0" (snd (createForm Sample.uuid Sample.s3_respond Sample.twoResidues Sample.world)))))))
    by (vm_compute; reflexivity).
  destruct (createFormMetadata_twice _ _ _ _ _ _ _ _ _ _ _ Hrun1 Hrun2)
    as [url2 [_ [Hf [Hd _]]]].
  split; [exact Hd|]. rewrite Hf. vm_compute. reflexivity.
Defined.

Lemma authorizeForm_then_createFormMetadata_witness :
  exists metadata,
    body (Sample.returned (mkFormMetadataResponse "" "") (createFormMetadata Sample.s3_respond Sample.getResidueTitle Sample.String_of_number Sample.JSON_stringify Sample.new_URL "id-0" (snd (authorizeForm "id-0" true (snd (createForm Sample.uuid Sample.s3_respond Sample.twoResidues Sample.world)))))) = Sample.JSON_stringify metadata
    /\ attributes metadata !! 1 = Some (mkAttribute "Audit" "Verified").
Proof.
  assert (Hrun1 : (authorizeForm "id-0" true (snd (createForm Sample.uuid Sample.s3_respond Sample.twoResidues Sample.world))) = (inr (Sample.returned Sample.noForm (authorizeForm "id-0" true (snd (createForm Sample.uuid Sample.s3_respond Sample.twoResidues Sample.world)))), snd (authorizeForm "id-0" true (snd (createForm Sample.uuid Sample.s3_respond Sample.twoResidues Sample.world)))))
    by (vm_compute; reflexivity).
  assert (Hrun2 : (createFormMetadata Sample.s3_respond Sample.getResidueTitle Sample.String_of_number Sample.JSON_stringify Sample.new_URL "id-0" (snd (authorizeForm "id-0" true (snd (createForm Sample.uuid Sample.s3_respond Sample.twoResidues Sample.world))))) = (inr (Sample.returned (mkFormMetadataResponse "" "") (createFormMetadata Sample.s3_respond Sample.getResidueTitle Sample.String_of_number Sample.JSON_stringify Sample.new_URL "id-0" (snd (authorizeForm "id-0" true (snd (createForm Sample.uuid Sample.s3_respond Sample.twoResidues Sample.world)))))), snd (createFormMetadata Sample.s3_respond Sample.getResidueTitle Sample.String_of_number Sample.JSON_stringify Sample.new_URL "id-0" (snd (authorizeForm "id-0" true (snd (createForm Sample.uuid Sample.s3_respond Sample.twoResidues Sample.world)))))))
    by (vm_compute; reflexivity).
  exact (authorizeForm_then_createFormMetadata _ _ _ _ _ _ _ _ _ _ _ _ Hrun1 Hrun2).
Defined.

Lemma createForm_failure_keeps_partial_writes_witness :
  fst (createForm Sample.uuid Sample.s3_refuses_b Sample.negativeGlass Sample.world) = inl (StorageFailure "Invalid file type")
  /\ exists f docs,
       forms (snd (createForm Sample.uuid Sample.s3_refuses_b Sample.negativeGlass Sample.world)) = forms Sample.world ++ [f]
       /\ documents (snd (createForm Sample.uuid Sample.s3_refuses_b Sample.negativeGlass Sample.world)) = documents Sample.world ++ docs
       /\ map residueType docs = [GLASS; METAL; ORGANIC].
Proof.
  assert (Hrun : (createForm Sample.uuid Sample.s3_refuses_b Sample.negativeGlass Sample.world)
                 = (inl (StorageFailure "Invalid file type"), snd (createForm Sample.uuid Sample.s3_refuses_b Sample.negativeGlass Sample.world)))
    by (vm_compute; reflexivity).
  split; [now rewrite Hrun|].
  destruct (createForm_failure_keeps_partial_writes _ _ _ _ _ _ Hrun)
    as [f [docs [Hf [_ [Hd [_ [Hrt _]]]]]]].
  exists f, docs. split; [exact Hf|]. split; [exact Hd|].
  rewrite Hrt. vm_compute in Hd. rewrite <- Hd. reflexivity.
Defined.

Lemma createForm_requests_witness :
  map req_fileName (s3Log (snd (createForm Sample.uuid Sample.s3_respond Sample.negativeGlass Sample.world))) = ["glass.mp4"; "a.pdf"; "b.pdf"]
  /\ length (s3Log (snd (createForm Sample.uuid Sample.s3_respond Sample.negativeGlass Sample.world))) = 3.
Proof.
  assert (Hrun : (createForm Sample.uuid Sample.s3_respond Sample.negativeGlass Sample.world) = (inr (Sample.returned Sample.noResponse (createForm Sample.uuid Sample.s3_respond Sample.negativeGlass Sample.world)), snd (createForm Sample.uuid Sample.s3_respond Sample.negativeGlass Sample.world)))
    by (vm_compute; reflexivity).
  apply createForm_requests in Hrun. destruct Hrun as [Hlog Hlen].
  split; [rewrite Hlog | rewrite Hlen]; vm_compute; reflexivity.
Defined.

Lemma createForm_response_mirrors_documents_witness :
  exists r d,
    s3 (Sample.returned Sample.noResponse (createForm Sample.uuid Sample.s3_respond Sample.negativeGlass Sample.world)) !! 3 = Some r
    /\ documents (snd (createForm Sample.uuid Sample.s3_respond Sample.negativeGlass Sample.world)) !! 3 = Some d
    /\ invoicesFileName d = up_invoicesFileName r.
Proof.
  assert (Hrun : (createForm Sample.uuid Sample.s3_respond Sample.negativeGlass Sample.world)
                 = (inr (Sample.returned Sample.noResponse (createForm Sample.uuid Sample.s3_respond Sample.negativeGlass Sample.world)), snd (createForm Sample.uuid Sample.s3_respond Sample.negativeGlass Sample.world)))
    by (vm_compute; reflexivity).
  assert (Hr : s3 (Sample.returned Sample.noResponse (createForm Sample.uuid Sample.s3_respond Sample.negativeGlass Sample.world)) !! 3
               = Some (nth 3 (s3 (Sample.returned Sample.noResponse (createForm Sample.uuid Sample.s3_respond Sample.negativeGlass Sample.world)))
                           (mkResidueUpload [] [] "" None GLASS)))
    by (vm_compute; reflexivity).
  destruct (createForm_response_mirrors_documents _ _ _ _ _ _ Hrun 3 _ Hr)
    as [d [Hd [_ [_ [Hi _]]]]].
  eexists. exists d. split; [exact Hr|]. split; [exact Hd | exact Hi].
Defined.

Lemma createForm_then_findByFormId_witness :
  findByFormId "id-0" (snd (createForm Sample.uuid Sample.s3_respond Sample.twoResidues Sample.world))
  = (inr (form (Sample.returned Sample.noResponse (createForm Sample.uuid Sample.s3_respond Sample.twoResidues Sample.world))), (snd (createForm Sample.uuid Sample.s3_respond Sample.twoResidues Sample.world))).
Proof.
  assert (Hrun : (createForm Sample.uuid Sample.s3_respond Sample.twoResidues Sample.world) = (inr (Sample.returned Sample.noResponse (createForm Sample.uuid Sample.s3_respond Sample.twoResidues Sample.world)), snd (createForm Sample.uuid Sample.s3_respond Sample.twoResidues Sample.world)))
    by (vm_compute; reflexivity).
  apply createForm_then_findByFormId in Hrun; [|intros g []].
  exact (proj1 Hrun).
Defined.

Lemma createForm_then_listAllFromUserByUserId_witness :
  fst (listAllFromUserByUserId "user-1" (snd (createForm Sample.uuid Sample.s3_respond Sample.twoResidues Sample.world)))
  = inr [form (Sample.returned Sample.noResponse (createForm Sample.uuid Sample.s3_respond Sample.twoResidues Sample.world))]
  /\ fst (listAllFromUserByUserId "user-2" (snd (createForm Sample.uuid Sample.s3_respond Sample.twoResidues Sample.world))) = inr [].
Proof.
  assert (Hrun : (createForm Sample.uuid Sample.s3_respond Sample.twoResidues Sample.world) = (inr (Sample.returned Sample.noResponse (createForm Sample.uuid Sample.s3_respond Sample.twoResidues Sample.world)), snd (createForm Sample.uuid Sample.s3_respond Sample.twoResidues Sample.world)))
    by (vm_compute; reflexivity).
  split.
  - destruct (createForm_then_listAllFromUserByUserId _ _ _ _ _ _ Hrun "user-1")
      as [before [Hb [Ha _]]].
    rewrite Ha. vm_compute in Hb. injection Hb as <-. reflexivity.
  - destruct (createForm_then_listAllFromUserByUserId _ _ _ _ _ _ Hrun "user-2")
      as [before [Hb [Ha _]]].
    rewrite Ha. vm_compute in Hb. injection Hb as <-. reflexivity.
Defined.

Lemma createForm_then_listAllForms_witness :
  fst (listAllForms (snd (createForm Sample.uuid Sample.s3_respond Sample.twoResidues Sample.world))) = inr [form (Sample.returned Sample.noResponse (createForm Sample.uuid Sample.s3_respond Sample.twoResidues Sample.world))].
Proof.
  assert (Hrun : (createForm Sample.uuid Sample.s3_respond Sample.twoResidues Sample.world) = (inr (Sample.returned Sample.noResponse (createForm Sample.uuid Sample.s3_respond Sample.twoResidues Sample.world)), snd (createForm Sample.uuid Sample.s3_respond Sample.twoResidues Sample.world)))
    by (vm_compute; reflexivity).
  apply createForm_then_listAllForms in Hrun; [|apply List.Forall_nil].
  destruct Hrun as [before [Hb Ha]].
  rewrite Ha. vm_compute in Hb. injection Hb as <-. reflexivity.
Defined.

Lemma createForm_keeps_form_quantities_witness :
  kgsOfProfile glassKgs (snd (createForm Sample.uuid Sample.s3_respond Sample.twoResidues Sample.world)) RECYCLER = kgsOfProfile glassKgs Sample.world RECYCLER.
Proof.
  assert (Hrun : (createForm Sample.uuid Sample.s3_respond Sample.twoResidues Sample.world) = (inr (Sample.returned Sample.noResponse (createForm Sample.uuid Sample.s3_respond Sample.twoResidues Sample.world)), snd (createForm Sample.uuid Sample.s3_respond Sample.twoResidues Sample.world)))
    by (vm_compute; reflexivity).
  exact (proj1 (createForm_keeps_form_quantities _ _ _ _ _ _ Hrun RECYCLER)).
Defined.

Lemma createForm_without_evidence_keeps_aggregates_witness :
  fst (aggregateFormByUserProfile (snd (createForm Sample.uuid Sample.s3_respond Sample.quantitiesOnly Sample.world)))
  = fst (aggregateFormByUserProfile Sample.world).
Proof.
  assert (Hrun : (createForm Sample.uuid Sample.s3_respond Sample.quantitiesOnly Sample.world) = (inr (Sample.returned Sample.noResponse (createForm Sample.uuid Sample.s3_respond Sample.quantitiesOnly Sample.world)), snd (createForm Sample.uuid Sample.s3_respond Sample.quantitiesOnly Sample.world)))
    by (vm_compute; reflexivity).
  apply createForm_without_evidence_keeps_aggregates in Hrun;
    [exact Hrun | reflexivity | intros d []].
Defined.

Lemma createForm_adds_to_aggregate_witness :
  exists a b,
    aggregateFormByUserProfile (snd (createForm Sample.uuid Sample.s3_respond Sample.twoResidues Sample.world))
    = (inr [ mkAggregate RECYCLER (a + submittedAmount Sample.twoResidues)%Qc;
             mkAggregate WASTE_GENERATOR (b + 0)%Qc ], (snd (createForm Sample.uuid Sample.s3_respond Sample.twoResidues Sample.world))).
Proof.
  assert (Hrun : (createForm Sample.uuid Sample.s3_respond Sample.twoResidues Sample.world) = (inr (Sample.returned Sample.noResponse (createForm Sample.uuid Sample.s3_respond Sample.twoResidues Sample.world)), snd (createForm Sample.uuid Sample.s3_respond Sample.twoResidues Sample.world)))
    by (vm_compute; reflexivity).
  apply createForm_adds_to_aggregate with (user := Sample.recycler) in Hrun;
    [ | reflexivity | intros g [] | intros d [] | reflexivity | reflexivity ].
  destruct Hrun as [a [b [_ Hafter]]]. exists a, b. exact Hafter.
Defined.

